(** * Vity CLI ([src/vity/cli.py]): a shallow embedding and its properties

    The development follows the source file top to bottom:
    - [PyStr]: Python [str] values as sequences of code points, with the
      string methods the CLI calls ([in], [find], [split], [join],
      [replace], [strip]);
    - [PyVal]: the JSON-shaped values that make up chat messages, and the
      exceptions raised by subscripting, attribute access, reading and
      writing;
    - the file system and standard output as explicit state, the
      [do]/[chat] branch of [main], [install_shell_integration] and
      [reinstall_shell_integration].

    A file is modelled by its text as Python's text-mode [read] returns it.
    In the [do]/[chat] branch, which opens the paths the user names, a read
    that fails for another reason than a missing file and an [open] for
    writing that fails are part of the model: the operating system's answer
    is a parameter.  The fixed files under the home directory (the profile,
    the configuration file, the shell history) are taken to be readable and
    writable. *)

From Stdlib Require Import String Ascii.
From stdpp Require Import base option list gmap.

Local Open Scope N_scope.
Local Open Scope nat_scope.
Local Open Scope list_scope.

(** ** Python strings *)

Module PyStr.

(** A [str] is a sequence of Unicode code points. *)
Abbreviation pystr := (list N).

(** String literals of the source are UTF-8 text; [py] decodes one into its
    code points.  The decoder keeps the number of continuation bytes still
    expected and the bits gathered so far. *)
Fixpoint utf8_decode (need : nat) (acc : N) (bs : list N) : pystr :=
  match bs with
  | [] => []
  | b :: bs' =>
      match need with
      | O =>
          if (b <? 128)%N then b :: utf8_decode 0 0%N bs'
          else if (b <? 224)%N then utf8_decode 1 (N.land b 31) bs'
          else if (b <? 240)%N then utf8_decode 2 (N.land b 15) bs'
          else utf8_decode 3 (N.land b 7) bs'
      | S k =>
          let acc' := (acc * 64 + N.land b 63)%N in
          match k with
          | O => acc' :: utf8_decode 0 0%N bs'
          | S _ => utf8_decode k acc' bs'
          end
      end
  end.

Definition py (lit : string) : pystr :=
  utf8_decode 0 0%N (map N_of_ascii (list_ascii_of_string lit)).

Global Arguments py : simpl never.

(** The double quote cannot be written inside a literal; [unq] puts it back
    where a literal carries a back quote in its place (the source text has
    no back quote of its own). *)
Definition unq (s : pystr) : pystr :=
  map (λ c, if (c =? 96)%N then 34%N else c) s.

(** [s.startswith(p)] *)
Fixpoint starts_with (p s : pystr) : bool :=
  match p, s with
  | [], _ => true
  | _ :: _, [] => false
  | a :: p', b :: s' => (a =? b)%N && starts_with p' s'
  end.

(** [s.find(p)]: the index of the first occurrence, [None] for Python's -1. *)
Fixpoint find (p s : pystr) : option nat :=
  if starts_with p s then Some 0
  else match s with
       | [] => None
       | _ :: s' => S <$> find p s'
       end.

(** [p in s] *)
Definition contains (p s : pystr) : bool :=
  match find p s with Some _ => true | None => false end.

(** Number of positions of [s] at which [p] starts. *)
Fixpoint occurrences (p s : pystr) : nat :=
  (if starts_with p s then 1 else 0) +
  match s with
  | [] => 0
  | _ :: s' => occurrences p s'
  end.

(** [s.split(sep)] for a non-empty [sep] (Python raises [ValueError] on an
    empty one, and the CLI never passes one).  The scan goes left to right;
    after a match the remaining [length sep - 1] characters of the separator
    are skipped, so matches do not overlap. *)
Fixpoint split_skip (sep : pystr) (skip : nat) (s : pystr) : list pystr :=
  match s with
  | [] => [[]]
  | c :: s' =>
      match skip with
      | S k => split_skip sep k s'
      | O =>
          if starts_with sep s then [] :: split_skip sep (length sep - 1) s'
          else match split_skip sep 0 s' with
               | piece :: pieces => (c :: piece) :: pieces
               | [] => [[c]]
               end
      end
  end.

Definition split (sep s : pystr) : list pystr := split_skip sep 0 s.

(** [sep.join(l)] *)
Fixpoint join (sep : pystr) (l : list pystr) : pystr :=
  match l with
  | [] => []
  | x :: xs =>
      match xs with
      | [] => x
      | _ :: _ => x ++ sep ++ join sep xs
      end
  end.

(** [s.replace(old, new)] for a non-empty [old]: the pieces between the
    non-overlapping occurrences of [old], glued with [new]. *)
Definition replace (old new s : pystr) : pystr := join new (split old s).

(** [c.isspace()]: the code points [str.strip()] removes. *)
Definition is_space (c : N) : bool :=
  ((9 <=? c) && (c <=? 13) || (28 <=? c) && (c <=? 32)
   || (c =? 133) || (c =? 160) || (c =? 5760)
   || (8192 <=? c) && (c <=? 8202)
   || (c =? 8232) || (c =? 8233) || (c =? 8239) || (c =? 8287)
   || (c =? 12288))%N.

Fixpoint lstrip (s : pystr) : pystr :=
  match s with
  | [] => []
  | c :: s' => if is_space c then lstrip s' else s
  end.

Definition rstrip (s : pystr) : pystr := rev (lstrip (rev s)).

(** [s.strip()] *)
Definition strip (s : pystr) : pystr := lstrip (rstrip s).

(** The line feed. *)
Definition nl : pystr := [10%N].

Definition str_eqb (a b : pystr) : bool := bool_decide (a = b).

(** [s.removesuffix(suf)] *)
Definition remove_suffix (suf s : pystr) : pystr :=
  if str_eqb (drop (length s - length suf) s) suf
  then take (length s - length suf) s else s.

End PyStr.
Import PyStr.

(** ** Python values and exceptions *)

Module PyVal.

#[local] Set Warnings "-register-all".

(** The values [json.load] produces and chat messages are made of.  JSON
    reals are left out: no operation of the CLI looks at a number. *)
Inductive pyval :=
| VNone
| VBool (b : bool)
| VInt (z : Z)
| VStr (s : pystr)
| VList (l : list pyval)
| VDict (d : list (pystr * pyval)).

(** A chat message is a JSON object: its keys in order with their values. *)
Definition msg := list (pystr * pyval).

(** The exceptions the [do]/[chat] branch can meet.  [ClientError] stands for
    whatever [Exception] the model client raises, with its [str()];
    [OSError] for the errors of [open] that no handler names: a directory
    in place of the file, no permission and, when writing, a directory that
    is missing. *)
Inductive exn :=
| IndexError
| KeyError
| TypeError
| AttributeError
| ClientError (message : pystr)
| JSONDecodeError
| UnicodeDecodeError
| RecursionError
| OSError (message : pystr).

Definition result (A : Type) : Type := exn + A.

Definition ok {A} (a : A) : result A := inr a.
Definition throw {A} (e : exn) : result A := inl e.

Definition rbind {A B} (r : result A) (k : A → result B) : result B :=
  match r with
  | inl e => inl e
  | inr a => k a
  end.

(** [d.get(k)]: [None] when the key is absent. *)
Fixpoint dict_get (k : pystr) (d : list (pystr * pyval)) : option pyval :=
  match d with
  | [] => None
  | (k', v) :: d' => if str_eqb k' k then Some v else dict_get k d'
  end.

(** [v.get(k, dflt)]: only a dict has the method. *)
Definition get_method (v : pyval) (k : pystr) (dflt : pyval) : result pyval :=
  match v with
  | VDict d => ok (default dflt (dict_get k d))
  | _ => throw AttributeError
  end.

(** [v[0]].  A dict read from JSON has string keys only, so the key [0] is
    never present. *)
Definition subscript0 (v : pyval) : result pyval :=
  match v with
  | VList (x :: _) => ok x
  | VList [] => throw IndexError
  | VStr (c :: _) => ok (VStr [c])
  | VStr [] => throw IndexError
  | VDict _ => throw KeyError
  | VNone | VBool _ | VInt _ => throw TypeError
  end.

(** [l[i]] on a list of strings. *)
Definition list_index (l : list pystr) (i : nat) : result pystr :=
  match l !! i with
  | Some x => ok x
  | None => throw IndexError
  end.

Definition is_str (s : pystr) (v : pyval) : bool :=
  match v with
  | VStr s' => str_eqb s' s
  | _ => false
  end.

(** [needle in v] for a string [needle]: substring test on a string,
    membership on a list, key membership on a dict. *)
Definition in_test (needle : pystr) (v : pyval) : result bool :=
  match v with
  | VStr s => ok (contains needle s)
  | VList l => ok (existsb (is_str needle) l)
  | VDict d => ok (existsb (λ kv, str_eqb kv.1 needle) d)
  | VNone | VBool _ | VInt _ => throw TypeError
  end.

(** [v.split(sep)]: only a string has the method. *)
Definition split_method (v : pyval) (sep : pystr) : result (list pystr) :=
  match v with
  | VStr s => ok (split sep s)
  | _ => throw AttributeError
  end.

(** A non-empty dict is true. *)
Definition dict_truthy (m : msg) : bool :=
  match m with
  | [] => false
  | _ :: _ => true
  end.

(** A path option of [argparse] is true when given and not empty. *)
Definition path_given (p : option pystr) : option pystr :=
  match p with
  | Some (c :: s) => Some (c :: s)
  | _ => None
  end.

End PyVal.
Import PyVal.

Notation "'let*' x ':=' r 'in' k" := (rbind r (λ x, k))
  (at level 10, x name, r at level 100, k at level 200, only parsing).

(** ** The response parser of the [do] branch *)

Definition delimiter : pystr := py " # ".
Definition annotation : pystr := py " * vity generated command".

(** [msg.get("role") == "assistant"] *)
Definition is_assistant (m : msg) : bool :=
  match dict_get (py "role") m with
  | Some v => is_str (py "assistant") v
  | None => false
  end.

(** The loop over [reversed(updated_chat_history)] with its [break]. *)
Fixpoint first_assistant (l : list msg) : option msg :=
  match l with
  | [] => None
  | m :: l' => if is_assistant m then Some m else first_assistant l'
  end.

Definition last_assistant_msg (updated_chat_history : list msg) : option msg :=
  first_assistant (rev updated_chat_history).

(** [last_assistant_msg.get("content", [{}])[0].get("text", "")] *)
Definition content_text (m : msg) : result pyval :=
  let content := default (VList [VDict []]) (dict_get (py "content") m) in
  let* part := subscript0 content in
  get_method part (py "text") (VStr (py "")).

(** The three assignments under [if " # " in content]. *)
Definition cmd_string (content : pyval) : result pystr :=
  let* parts := split_method content delimiter in
  let* cmd_part := list_index parts 0 in
  let* parts' := split_method content delimiter in
  let* piece := list_index parts' 1 in
  let comment_part := replace annotation (py "") piece in
  ok (cmd_part ++ py " # " ++ comment_part).

(** The parser as the specification words it: split once at the first
    delimiter, take everything to its right, drop the annotation from the
    end of it. *)
Definition spec_cmd_string (text : pystr) : pystr :=
  match find delimiter text with
  | Some i =>
      let cmdPart := take i text in
      let rest := drop (i + length delimiter) text in
      let commentText := remove_suffix annotation rest in
      cmdPart ++ py " # " ++ commentText
  | None => text
  end.

(** ** The file system and standard output *)

(** [fs] maps a file to its text; [out] lists what was printed, one entry
    for each call of [print].  A file is named by one fixed path to it: the
    paths the program builds from [Path.home()] stand for their files, and a
    path the user types is taken to its file by [resolve] below, so that two
    spellings of one file are one key. *)
Record world := World {
  fs : gmap pystr pystr;
  out : list pystr
}.

(** A computation changes the world and returns or raises. *)
Definition M (A : Type) : Type := world → world * result A.

Definition ret {A} (a : A) : M A := λ w, (w, ok a).
Definition raise {A} (e : exn) : M A := λ w, (w, throw e).
Definition lift {A} (r : result A) : M A := λ w, (w, r).

Definition bind {A B} (m : M A) (k : A → M B) : M B :=
  λ w, match m w with
       | (w', inl e) => (w', inl e)
       | (w', inr a) => k a w'
       end.

Notation "x ← m ; k" := (bind m (λ x, k))
  (at level 20, m at level 100, k at level 200, only parsing).
Notation "m ;; k" := (bind m (λ _, k))
  (at level 100, k at level 200, right associativity, only parsing).

Definition print (s : pystr) : M unit :=
  λ w, (World (fs w) (out w ++ [s]), ok tt).

(** [path.exists()] *)
Definition exists_file (p : pystr) : M bool :=
  λ w, (w, ok (bool_decide (is_Some (fs w !! p)))).

(** [open(p, "w")] followed by one [write]. *)
Definition write_file (p data : pystr) : M unit :=
  λ w, (World (<[p := data]> (fs w)) (out w), ok tt).

(** [open(p, "a")] followed by one [write]; the file is created when it is
    not there. *)
Definition append_file (p data : pystr) : M unit :=
  λ w, (World (<[p := default [] (fs w !! p) ++ data]> (fs w)) (out w), ok tt).

(** ** The [do] and [chat] branch of [main] *)

Inductive command := Do | Chat.

(** What [argparse] hands over. *)
Record args := Args {
  cmd : command;
  prompt : list pystr;
  history_file : option pystr;
  chat_file : option pystr
}.

(** The texts printed: two warnings, the progress line and the report of
    the handler of line 211. *)
Definition history_warning (p : pystr) : pystr :=
  py "⚠️  Warning: history file '" ++ p ++ py "' not found".
Definition chat_warning (p : pystr) : pystr :=
  py "⚠️  Warning: chat file '" ++ p
  ++ py "' contains invalid JSON, starting fresh".
Definition thinking : pystr := py "🤖 Vity is thinking...".
Definition error_line (exn_str : exn → pystr) (e : exn) : pystr :=
  py "❌ Error: " ++ exn_str e.

(** The line a command leaves in the shell history. *)
Definition history_line (cmd_string : pystr) : pystr :=
  cmd_string ++ py " # Vity generated" ++ nl.

Section Main.

(** [Path.home() / ".bash_history"] *)
Variable bash_history : pystr.

(** The file the operating system opens for a path as it was typed. *)
Variable resolve : pystr → pystr.

(** What reading the existing file at a path in text mode raises, if
    anything: [UnicodeDecodeError] for bytes that are no text, [OSError]. *)
Variable read_error : pystr → option exn.

(** What [open(path, "w")] raises, if anything. *)
Variable open_error : pystr → option exn.

(** [json.loads], which raises [JSONDecodeError] on text that is not JSON
    and [RecursionError] on JSON nested too deep, and [json.dumps] with
    [indent=2]. *)
Variable json_loads : pystr → result pyval.
Variable json_dumps : list msg → pystr.

(** The model client of [vity.llm]: terminal log, chat history and prompt to
    the updated chat history, or an exception. *)
Variable generate_command : pystr → pyval → pystr → result (list msg).
Variable generate_chat_response : pystr → pyval → pystr → result (list msg).

(** [str(v)] on a value that is not a string, and [str(e)]. *)
Variable str_value : pyval → pystr.
Variable exn_str : exn → pystr.

(** [f"{v}"] and what [print(v)] writes. *)
Definition format (v : pyval) : pystr :=
  match v with
  | VStr s => s
  | _ => str_value v
  end.

(** Lines 135-141: the terminal log, with a warning when it is not there.
    Only [FileNotFoundError] is handled. *)
Definition load_terminal_history (a : args) : M pystr :=
  match path_given (history_file a) with
  | Some p =>
      λ w, match fs w !! resolve p with
           | Some text =>
               match read_error p with
               | Some e => raise e w
               | None => ret text w
               end
           | None =>
               (print (history_warning p);; ret (py "")) w
           end
  | None => ret (py "")
  end.

(** Lines 144-154: the chat history.  [FileNotFoundError] and
    [JSONDecodeError] are handled, nothing else. *)
Definition load_chat_history (a : args) : M pyval :=
  match path_given (chat_file a) with
  | Some p =>
      λ w, match fs w !! resolve p with
           | Some text =>
               match read_error p with
               | Some e => raise e w
               | None =>
                   match json_loads text with
                   | inr chat_history => ret chat_history w
                   | inl JSONDecodeError =>
                       (print (chat_warning p);; ret (VList [])) w
                   | inl e => raise e w
                   end
               end
           | None => ret (VList []) w
           end
  | None => ret (VList [])
  end.

(** Lines 187-189 and 206-208. *)
Definition save_chat_history (a : args) (updated_chat_history : list msg) : M unit :=
  match path_given (chat_file a) with
  | Some p =>
      match open_error p with
      | Some e => raise e
      | None => write_file (resolve p) (json_dumps updated_chat_history)
      end
  | None => ret tt
  end.

(** Lines 170-184. *)
Definition show_command (last_assistant : msg) : M unit :=
  content ← lift (content_text last_assistant);
  has_delimiter ← lift (in_test delimiter content);
  if has_delimiter : bool then
    cmd_string ← lift (cmd_string content);
    print (py "Command: " ++ cmd_string);;
    there ← exists_file bash_history;
    if there : bool then
      append_file bash_history (history_line cmd_string)
    else ret tt
  else
    print (py "Command: " ++ format content).

(** Lines 160-189. *)
Definition do_branch (a : args) (terminal_history : pystr)
    (chat_history : pyval) (user_input : pystr) : M unit :=
  updated_chat_history ←
    lift (generate_command terminal_history chat_history user_input);
  match last_assistant_msg updated_chat_history with
  | Some m => if dict_truthy m then show_command m else ret tt
  | None => ret tt
  end;;
  save_chat_history a updated_chat_history.

(** Lines 192-208. *)
Definition chat_branch (a : args) (terminal_history : pystr)
    (chat_history : pyval) (user_input : pystr) : M unit :=
  updated_chat_history ←
    lift (generate_chat_response terminal_history chat_history user_input);
  match last_assistant_msg updated_chat_history with
  | Some m =>
      if dict_truthy m then
        content ← lift (content_text m);
        print (format content)
      else ret tt
  | None => ret tt
  end;;
  save_chat_history a updated_chat_history.

(** Lines 158-212: the [try] block and its handler, with the exit status of
    the process. *)
Definition try_generate (a : args) (terminal_history : pystr)
    (chat_history : pyval) (user_input : pystr) (w : world) : world * Z :=
  let block :=
    match cmd a with
    | Do => do_branch a terminal_history chat_history user_input
    | Chat => chat_branch a terminal_history chat_history user_input
    end in
  match block w with
  | (w', inr _) => (w', 0%Z)
  | (w', inl e) => (World (fs w') (out w' ++ [error_line exn_str e]), 1%Z)
  end.

(** Lines 131-212: the branch of [main] taken for [do] and [chat].  Option
    parsing, the dispatch to the other subcommands and the first-run
    configuration come before it.  The two loads stand outside the [try]
    block: an exception they let through ends the process with status 1,
    and nothing more is printed to standard output. *)
Definition main (a : args) (w : world) : world * Z :=
  let user_input := join (py " ") (prompt a) in
  let loads :=
    terminal_history ← load_terminal_history a;
    chat_history ← load_chat_history a;
    print thinking;;
    ret (terminal_history, chat_history) in
  match loads w with
  | (w', inr (terminal_history, chat_history)) =>
      try_generate a terminal_history chat_history user_input w'
  | (w', inl _) => (w', 1%Z)
  end.

End Main.

(** ** Shell integration *)

Definition marker : pystr := py "# Vity shell integration".

(** The shell function [install] appends, as in the source between its
    triple quotes; a back quote stands for a double quote. *)
Definition script_content : pystr := unq (py "
# Vity shell integration
vity() {
    if [[ `$1` == `record` ]]; then
        shift
        log_dir=`$HOME/.local/share/vity/logs`
        chat_dir=`$HOME/.local/share/vity/chat`
        mkdir -p `$log_dir`
        mkdir -p `$chat_dir`
        logfile=`$log_dir/$(date +%Y%m%d-%H%M%S)-$$.log`
        chatfile=`$chat_dir/$(date +%Y%m%d-%H%M%S)-$$.json`
        
        export VITY_ACTIVE_LOG=`$logfile`
        export VITY_ACTIVE_CHAT=`$chatfile`
        export VITY_RECORDING=`🔴`
        export VITY_OLD_PS1=`$PS1`
        export PS1=`$VITY_RECORDING $PS1`
        echo -ne `\033]0;🔴 RECORDING - Vity Session\007`
        
        echo `🔴 Starting recording session`
        echo `📝 Use 'vity do' or 'vity chat' for contextual help`
        echo `🛑 Type 'exit' to stop recording`
        
        script -f `$logfile`
        
        unset VITY_ACTIVE_LOG VITY_ACTIVE_CHAT VITY_RECORDING VITY_OLD_PS1
        export PS1=`$VITY_OLD_PS1`
        # Don't change terminal title on exit - let terminal use its default behavior
        echo `🟢 Recording session ended`
        
    elif [[ `$1` == `do` ]]; then
        shift
        if [[ -n `$VITY_ACTIVE_LOG` && -f `$VITY_ACTIVE_LOG` ]]; then
            command vity -f `$VITY_ACTIVE_LOG` -c `$VITY_ACTIVE_CHAT` do `$@`
        else
            echo `⚠️  No active recording. Use 'vity record' for context.`
            command vity do `$@`
        fi
        
    elif [[ `$1` == `chat` ]]; then
        shift
        if [[ -n `$VITY_ACTIVE_LOG` && -f `$VITY_ACTIVE_LOG` ]]; then
            command vity -f `$VITY_ACTIVE_LOG` -c `$VITY_ACTIVE_CHAT` chat `$@`
        else
            echo `⚠️  No active recording. Use 'vity record' for context.`
            command vity chat `$@`
        fi
        
    elif [[ `$1` == `status` ]]; then
        if [[ -n `$VITY_ACTIVE_LOG` ]]; then
            echo `🔴 Recording active:`
            echo `  📝 Terminal log: $VITY_ACTIVE_LOG`
            echo `  💬 Chat history: $VITY_ACTIVE_CHAT`
        else
            echo `⚫ No active recording`
        fi
        
    elif [[ `$1` == `help` || `$1` == `-h` || `$1` == `--help` ]]; then
        cat << 'EOF'
🤖 Vity - AI Terminal Assistant

USAGE:
    vity <command> [options] [prompt]

COMMANDS:
    do <prompt>      Generate a shell command (adds to history)
    chat <prompt>    Chat with AI about terminal/coding topics
    record           Start recording session for context
    status           Show current recording status
    config           Show configuration
    config --reset   Reset configuration (always available)
    install          Install shell integration (always available)
    reinstall        Reinstall shell integration (always available)
    help             Show this help message

EXAMPLES:
    vity do `find all python files`
    vity chat `explain this error message`
    vity record
    vity do `deploy the app`  # (with context from recording)
    vity status
    vity config --reset
    vity reinstall

CONTEXT:
    • Use 'vity record' to start capturing session context
    • Commands run during recording provide better AI responses
    • Recording captures both terminal output and chat history
    • Recording indicator (🔴) shows in your prompt
    • Use 'exit' to stop recording
EOF
        
    else
        # Show help for unknown commands or no arguments
        if [[ -n `$1` ]]; then
            echo `❌ Unknown command: $1`
            echo ``
        fi
        echo `🤖 Vity - AI Terminal Assistant`
        echo ``
        echo `Usage: vity <command> [prompt]`
        echo ``
        echo `Commands:`
        echo `  do <prompt>      Generate shell command`
        echo `  chat <prompt>    Chat with AI`
        echo `  record           Start recording session`
        echo `  status           Show recording status`
        echo `  config           Show configuration`
        echo `  config --reset   Reset configuration`
        echo `  install          Install shell integration`
        echo `  reinstall        Reinstall shell integration`
        echo `  help             Show detailed help`
        echo ``
        echo `Run 'vity help' for more details and examples.`
    fi
    
    history -n 2>/dev/null || true
}
").

Section Installer.

(** [Path.home() / ".bashrc"] *)
Variable bashrc : pystr.

(** Lines 337-348. *)
Definition install_shell_integration : M unit :=
  there ← exists_file bashrc;
  if there : bool then
    λ w,
      let content := default [] (fs w !! bashrc) in
      if negb (contains marker content) then
        (append_file bashrc (nl ++ script_content);;
         print (py "✅ Shell integration installed!");;
         print (py "Run 'source ~/.bashrc' or start a new terminal session")) w
      else
        print (py "✅ Shell integration already installed") w
  else
    print (py "❌ ~/.bashrc not found").

(** The body of the loop of lines 369-378 on one line: the lines kept so far
    and the flag, and whether the removal message is printed. *)
Definition scan_line (new_lines : list pystr) (in_vity_section : bool)
    (line : pystr) : list pystr * bool * bool :=
  if str_eqb (strip line) marker then (new_lines, true, true)
  else if in_vity_section && str_eqb (strip line) (py "}") then
    (new_lines, false, false)
  else if negb in_vity_section then (new_lines ++ [line], in_vity_section, false)
  else (new_lines, in_vity_section, false).

Fixpoint scan_lines (lines new_lines : list pystr) (in_vity_section : bool)
    : M (list pystr) :=
  match lines with
  | [] => ret new_lines
  | line :: lines' =>
      match scan_line new_lines in_vity_section line with
      | (new_lines', in_vity_section', removing) =>
          (if removing : bool
           then print (py "🗑️  Removing existing shell integration...")
           else ret tt);;
          scan_lines lines' new_lines' in_vity_section'
      end
  end.

(** Lines 351-387. *)
Definition reinstall_shell_integration : M unit :=
  there ← exists_file bashrc;
  if there : bool then
    print (py "🔄 Reinstalling shell integration...");;
    (λ w,
      let content := default [] (fs w !! bashrc) in
      let lines := split nl content in
      (new_lines ← scan_lines lines [] false;
       write_file bashrc (join nl new_lines)) w);;
    print (py "✨ Installing fresh shell integration...");;
    install_shell_integration;;
    print (py "✅ Shell integration reinstalled successfully!");;
    print (py "Run 'source ~/.bashrc' or start a new terminal session")
  else
    print (py "❌ ~/.bashrc not found").

End Installer.

(** ** Words for the statements *)

(** The model client the branch calls for a command. *)
Definition client_of
    (generate_command generate_chat_response
       : pystr → pyval → pystr → result (list msg)) (a : args) :=
  match cmd a with
  | Do => generate_command
  | Chat => generate_chat_response
  end.

(** The files once the updated history [h] has been saved. *)
Definition saved_files (resolve : pystr → pystr) (json_dumps : list msg → pystr)
    (a : args) (h : list msg) (files : gmap pystr pystr) : gmap pystr pystr :=
  match path_given (chat_file a) with
  | Some p => <[resolve p := json_dumps h]> files
  | None => files
  end.

(** The chat history can be saved: no chat path was given, or the file at
    it opens for writing. *)
Definition can_save (open_error : pystr → option exn) (a : args) : Prop :=
  ∀ p, path_given (chat_file a) = Some p → open_error p = None.

(** The handler of lines 210-212 around the [try] block: status 0 when the
    block returns, the error report and status 1 when it raises. *)
Definition handled (exn_str : exn → pystr) (r : world * result unit)
    : world * Z :=
  match r with
  | (w', inr _) => (w', 0%Z)
  | (w', inl e) => (World (fs w') (out w' ++ [error_line exn_str e]), 1%Z)
  end.

(** The files once [line] has been added to the shell history, if there is
    one. *)
Definition recorded_files (bash_history line : pystr) (files : gmap pystr pystr)
    : gmap pystr pystr :=
  match files !! bash_history with
  | Some old => <[bash_history := old ++ line]> files
  | None => files
  end.

(** A marker line and a closing line, as the loop of [reinstall] tests
    them. *)
Definition is_marker_line (line : pystr) : bool := str_eqb (strip line) marker.
Definition is_close_line (line : pystr) : bool := str_eqb (strip line) (py "}").

(** The integration blocks of a file: the regions that run from a marker
    line to the next closing line. *)
Fixpoint count_blocks (in_block : bool) (lines : list pystr) : nat :=
  match lines with
  | [] => 0
  | line :: lines' =>
      if is_marker_line line then count_blocks true lines'
      else if in_block && is_close_line line then S (count_blocks false lines')
      else count_blocks in_block lines'
  end.

Definition blocks (content : pystr) : nat :=
  count_blocks false (split nl content).

(** The lines the loop of [reinstall] keeps. *)
Fixpoint kept_lines (in_vity_section : bool) (lines : list pystr) : list pystr :=
  match lines with
  | [] => []
  | line :: lines' =>
      match scan_line [] in_vity_section line with
      | (new, in_vity_section', _) => new ++ kept_lines in_vity_section' lines'
      end
  end.

(** The files after [install]. *)
Definition installed (bashrc : pystr) (files : gmap pystr pystr)
    : gmap pystr pystr :=
  match files !! bashrc with
  | Some content =>
      if contains marker content then files
      else <[bashrc := content ++ nl ++ script_content]> files
  | None => files
  end.

(** A profile that mentions the marker in a comment above the block. *)
Definition commented_profile : pystr :=
  py "# the # Vity shell integration block below is managed by vity"
  ++ nl ++ nl ++ script_content.

(** ** Sample data *)

(** Messages as the model client builds them. *)
Definition text_message (role text : pystr) : msg :=
  [(py "role", VStr role);
   (py "content", VList [VDict [(py "type", VStr (py "text"));
                                (py "text", VStr text)]])].

Definition user_says (text : pystr) : msg := text_message (py "user") text.
Definition assistant_says (text : pystr) : msg :=
  text_message (py "assistant") text.

(** An assistant message whose list of content parts is empty. *)
Definition assistant_empty : msg :=
  [(py "role", VStr (py "assistant")); (py "content", VList [])].

(** A small environment to run the model in: the paths, with [/home/u] as
    the working directory; a file of bytes that are no text and a directory
    that does not exist; a JSON reader that knows the empty array only, a
    writer that puts a pair of braces for each message, and the messages of
    CPython's exceptions. *)
Definition sample_bash_history : pystr := py "/home/u/.bash_history".
Definition sample_bashrc : pystr := py "/home/u/.bashrc".
Definition sample_chat : pystr := py "/tmp/chat.json".
Definition sample_binary : pystr := py "/tmp/chat.bin".
Definition sample_missing_dir : pystr := py "/nowhere/chat.json".

Definition sample_resolve (p : pystr) : pystr :=
  if str_eqb p (py ".bash_history") then sample_bash_history else p.

Definition sample_read_error (p : pystr) : option exn :=
  if str_eqb p sample_binary then Some UnicodeDecodeError else None.

Definition sample_open_error (p : pystr) : option exn :=
  if str_eqb p sample_missing_dir
  then Some (OSError (py "[Errno 2] No such file or directory: '"
                      ++ p ++ py "'"))
  else None.

Definition sample_loads (text : pystr) : result pyval :=
  if str_eqb text (py "[]") then ok (VList []) else throw JSONDecodeError.

Definition sample_dumps (h : list msg) : pystr :=
  py "[" ++ mjoin ((λ _, py "{}") <$> h) ++ py "]".

Definition sample_str_value (v : pyval) : pystr := py "<value>".

Definition sample_exn_str (e : exn) : pystr :=
  match e with
  | IndexError => py "list index out of range"
  | KeyError => py "0"
  | TypeError => py "object is not subscriptable"
  | AttributeError => py "object has no attribute"
  | ClientError message => message
  | JSONDecodeError => py "Expecting value"
  | UnicodeDecodeError => py "'utf-8' codec can't decode byte"
  | RecursionError => py "maximum recursion depth exceeded"
  | OSError message => message
  end.

(** A model client that always answers with the same history. *)
Definition answers (h : list msg) : pystr → pyval → pystr → result (list msg) :=
  λ _ _ _, ok h.

(** A model client that always fails. *)
Definition fails (message : pystr) : pystr → pyval → pystr → result (list msg) :=
  λ _ _ _, throw (ClientError message).

(** [main] in the sample environment. *)
Definition sample_main (client : pystr → pyval → pystr → result (list msg)) :=
  main sample_bash_history sample_resolve sample_read_error sample_open_error
    sample_loads sample_dumps client client sample_str_value sample_exn_str.

(** ** Configuration and dispatch *)

(** The process around the files and the output: the lines still to be read
    from standard input, without their line feed, and the environment
    variables. *)
Record process := Process {
  world_of : world;
  stdin : list pystr;
  environ : gmap pystr pystr
}.

(** One more entry of [out]: a [print], or the prompt [input] writes. *)
Definition say (s : pystr) (p : process) : process :=
  Process (World (fs (world_of p)) (out (world_of p) ++ [s]))
    (stdin p) (environ p).

(** The subcommand [argparse] found, with the options of [do] and [chat]. *)
Inductive invocation :=
| Install
| Reinstall
| Config (reset : bool)
| NoCommand
| Generate (a : args).

(** A command that runs on the files and the output; an exception that
    escapes it ends the process with status 1. *)
Definition run_command (m : M unit) (p : process) : process * Z :=
  match m (world_of p) with
  | (w', inr _) => (Process w' (stdin p) (environ p), 0%Z)
  | (w', inl _) => (Process w' (stdin p) (environ p), 1%Z)
  end.

Section Cli.

(** [Path.home() / ".config" / "vity" / ".env"], [Path.home() / ".bashrc"]
    and [Path.home() / ".bash_history"]. *)
Variable config_file : pystr.
Variable bashrc : pystr.
Variable bash_history : pystr.

Variable resolve : pystr → pystr.
Variable read_error : pystr → option exn.
Variable open_error : pystr → option exn.
Variable json_loads : pystr → result pyval.
Variable json_dumps : list msg → pystr.
Variable generate_command : pystr → pyval → pystr → result (list msg).
Variable generate_chat_response : pystr → pyval → pystr → result (list msg).
Variable str_value : pyval → pystr.
Variable exn_str : exn → pystr.

(** What [parser.print_help()] writes. *)
Variable help_text : pystr.

(** Lines 18-43.  [None] stands for the [EOFError] of [input] at the end of
    standard input; [mkdir] leaves the files as they are. *)
Definition setup_config (p : process) : process * option bool :=
  if bool_decide (is_Some (fs (world_of p) !! config_file)) then (p, Some true)
  else
    let p1 :=
      say (py "")
        (say (py "You can get one at: https://platform.openai.com/api-keys")
           (say (py "🤖 Welcome to Vity! Let's set up your OpenAI API key.") p)) in
    let p2 := say (py "Enter your OpenAI API key: ") p1 in
    match stdin p2 with
    | [] => (p2, None)
    | line :: rest =>
        let api_key := strip line in
        let p3 := Process (world_of p2) rest (environ p2) in
        match api_key with
        | [] => (say (py "❌ API key is required") p3, Some false)
        | _ :: _ =>
            let p4 :=
              Process
                (World (<[config_file := py "OPENAI_API_KEY=" ++ api_key ++ nl]>
                          (fs (world_of p3)))
                   (out (world_of p3)))
                (stdin p3) (environ p3) in
            let p5 :=
              say (py "")
                (say (py "Config file: " ++ config_file)
                   (say (py "✅ Configuration saved!") p4)) in
            (Process (world_of p5) (stdin p5)
               (<[py "OPENAI_API_KEY" := api_key]> (environ p5)),
             Some true)
        end
    end.

(** Lines 390-399. *)
Definition reset_config : M unit :=
  there ← exists_file config_file;
  if there : bool then
    (λ w, (World (delete config_file (fs w)) (out w), ok tt));;
    print (py "✅ Configuration reset")
  else
    print (py "ℹ️  No configuration found").

(** Lines 402-412. *)
Definition show_config : M unit :=
  there ← exists_file config_file;
  if there : bool then
    print (py "📁 Config file: " ++ config_file);;
    print (py "🔑 API key configured")
  else
    print (py "❌ No configuration found");;
    print (py "Run 'vity config' to set up").

(** Lines 105-131 around the branch [main]: the subcommands that are always
    available, then the configuration, then the help or the generation. *)
Definition vity (i : invocation) (p : process) : process * Z :=
  match i with
  | Install => run_command (install_shell_integration bashrc) p
  | Reinstall => run_command (reinstall_shell_integration bashrc) p
  | Config reset =>
      if reset then run_command reset_config p else run_command show_config p
  | NoCommand | Generate _ =>
      match setup_config p with
      | (p', Some true) =>
          match i with
          | Generate a =>
              match main bash_history resolve read_error open_error json_loads
                      json_dumps generate_command generate_chat_response
                      str_value exn_str a (world_of p')
              with
              | (w', status) => (Process w' (stdin p') (environ p'), status)
              end
          | _ => (say help_text p', 0%Z)
          end
      | (p', _) => (p', 1%Z)
      end
  end.

End Cli.

(** The command line in the sample environment. *)
Definition sample_config : pystr := py "/home/u/.config/vity/.env".
Definition sample_help : pystr := py "usage: vity [-h] ...".

Definition sample_vity (client : pystr → pyval → pystr → result (list msg)) :=
  vity sample_config sample_bashrc sample_bash_history sample_resolve
    sample_read_error sample_open_error sample_loads sample_dumps client client
    sample_str_value sample_exn_str sample_help.

(** Number of marker lines of a text. *)
Definition marker_lines (content : pystr) : nat :=
  length (filter (λ l, is_marker_line l = true) (split nl content)).

(** ** Evaluations on sample inputs *)

Example py_ascii : py "a # b" = [97; 32; 35; 32; 98]%N.
Proof. reflexivity. Qed.

Example py_emoji : py "❌ ~" = [10060; 32; 126]%N.
Proof. reflexivity. Qed.

Example split_two : split (py " # ") (py "a # b # c") = [py "a"; py "b"; py "c"].
Proof. reflexivity. Qed.

Example split_overlap : split (py " # ") (py " # # ") = [py ""; py "# "].
Proof. reflexivity. Qed.

Example replace_all :
  replace (py "ab") (py "") (py "xabyabz") = py "xyz".
Proof. reflexivity. Qed.

Example strip_nbsp : strip (160%N :: py "  x y	") = py "x y".
Proof. reflexivity. Qed.

Example cmd_string_ls :
  cmd_string (VStr (py "ls -la # list files * vity generated command"))
  = ok (py "ls -la # list files").
Proof. reflexivity. Qed.

Example content_text_empty_list :
  content_text [(py "role", VStr (py "assistant")); (py "content", VList [])]
  = throw IndexError.
Proof. reflexivity. Qed.

(** * Properties *)

(** ** String methods *)

Section StrLemmas.
Implicit Types p s r sep : pystr.

Lemma starts_with_app p r : starts_with p (p ++ r) = true.
Proof. induction p as [|a p IH]; simpl; [done|]. by rewrite N.eqb_refl. Qed.

Lemma starts_with_inv p s : starts_with p s = true → s = p ++ drop (length p) s.
Proof.
  revert s. induction p as [|a p IH]; intros [|b s] H; simpl in *; try done.
  apply andb_true_iff in H as [Hab Hps]. apply N.eqb_eq in Hab. subst b.
  f_equal. by apply IH.
Qed.

Lemma starts_with_length p s : starts_with p s = true → length p ≤ length s.
Proof.
  intros H. rewrite (starts_with_inv _ _ H), length_app. lia.
Qed.

Lemma starts_with_nil p : p ≠ [] → starts_with p [] = false.
Proof. by destruct p. Qed.

(** A pattern that does not hold [c] cannot reach across a [c]. *)
Lemma starts_with_app_fresh p s c r :
  c ∉ p → starts_with p (s ++ c :: r) = starts_with p s.
Proof.
  revert s. induction p as [|a p IH]; intros s Hc; [by destruct s|].
  apply not_elem_of_cons in Hc as [Hca Hcp].
  destruct s as [|b s]; simpl.
  - destruct (N.eqb_spec a c); [congruence|done].
  - by rewrite IH.
Qed.

Lemma find_cons p c s :
  find p (c :: s) = if starts_with p (c :: s) then Some 0 else S <$> find p s.
Proof. done. Qed.

Lemma split_skip_cons_0 sep c s :
  split_skip sep 0 (c :: s) =
  if starts_with sep (c :: s) then [] :: split_skip sep (length sep - 1) s
  else match split_skip sep 0 s with
       | piece :: pieces => (c :: piece) :: pieces
       | [] => [[c]]
       end.
Proof. done. Qed.

Lemma find_0 p s : starts_with p s = true → find p s = Some 0.
Proof.
  intros H. destruct s; [by destruct p|]. by rewrite find_cons, H.
Qed.

Lemma find_None_cons p c s :
  find p (c :: s) = None → starts_with p (c :: s) = false ∧ find p s = None.
Proof.
  rewrite find_cons. destruct (starts_with p (c :: s)); [done|].
  by destruct (find p s).
Qed.

Lemma find_Some_cons p c s i :
  find p (c :: s) = Some i →
  (i = 0 ∧ starts_with p (c :: s) = true)
  ∨ (∃ j, i = S j ∧ starts_with p (c :: s) = false ∧ find p s = Some j).
Proof.
  rewrite find_cons. destruct (starts_with p (c :: s)); intros H.
  - left. by inversion H.
  - right. destruct (find p s) as [j|]; simpl in H; [|done].
    exists j. by inversion H.
Qed.

Lemma find_nil_l s : find [] s = Some 0.
Proof. by destruct s. Qed.

Lemma find_nil_r p : p ≠ [] → find p [] = None.
Proof. by destruct p. Qed.

(** [find] returns the first position at which the pattern starts. *)
Lemma find_Some p s i :
  find p s = Some i →
  s = take i s ++ p ++ drop (i + length p) s
  ∧ i + length p ≤ length s
  ∧ ∀ j, j < i → starts_with p (drop j s) = false.
Proof.
  revert i. induction s as [|c s IH]; intros i H.
  - destruct p; [|done]. inversion H. repeat split; [done|lia].
  - apply find_Some_cons in H as [[-> H]|(j & -> & Hno & H)].
    + repeat split; [|by apply starts_with_length in H|lia].
      by apply starts_with_inv in H.
    + destruct (IH _ H) as (Heq & Hlen & Hfirst). repeat split.
      * simpl. by rewrite <- Heq.
      * simpl. lia.
      * intros [|k] Hk; [done|]. simpl. apply Hfirst. lia.
Qed.

Lemma find_None p s j : find p s = None → starts_with p (drop j s) = false.
Proof.
  revert j. induction s as [|c s IH]; intros j H.
  - rewrite drop_nil. destruct p; [done|done].
  - apply find_None_cons in H as [H0 H]. destruct j; [done|]. by apply IH.
Qed.

Lemma find_app_first p s r :
  (∀ j, j < length s → starts_with p (drop j (s ++ p ++ r)) = false) →
  find p (s ++ p ++ r) = Some (length s).
Proof.
  induction s as [|c s IH]; intros H.
  - apply find_0. apply (starts_with_app p r).
  - rewrite <- app_comm_cons, find_cons.
    pose proof (H 0 ltac:(simpl; lia)) as H0. simpl in H0. rewrite H0.
    rewrite IH; [done|].
    intros j Hj. apply (H (S j)). simpl. lia.
Qed.

Lemma contains_find p s : contains p s = true ↔ ∃ i, find p s = Some i.
Proof.
  unfold contains. destruct (find p s) as [i|]; split; try done.
  - by exists i.
  - by intros [? ?].
Qed.

Lemma contains_false_find p s : contains p s = false ↔ find p s = None.
Proof. unfold contains. by destruct (find p s). Qed.

(** Skipping [k] characters is dropping them. *)
Lemma split_skip_drop sep k s : split_skip sep k s = split_skip sep 0 (drop k s).
Proof.
  revert k. induction s as [|c s IH]; intros [|k]; try done. simpl. apply IH.
Qed.

Lemma split_skip_cons sep c s :
  starts_with sep (c :: s) = false →
  ∃ piece pieces, split_skip sep 0 s = piece :: pieces
    ∧ split_skip sep 0 (c :: s) = (c :: piece) :: pieces.
Proof.
  intros H. 
  assert (∃ piece pieces, split_skip sep 0 s = piece :: pieces) as (x & xs & E).
  { destruct s as [|b s]; [by eexists _, _|]. simpl.
    destruct (starts_with sep (b :: s)); [by eexists _, _|].
    destruct (split_skip sep 0 s); by eexists _, _. }
  exists x, xs. split; [done|]. by rewrite split_skip_cons_0, H, E.
Qed.

(** Without an occurrence of the separator the text is the only piece. *)
Lemma split_find_None sep s : find sep s = None → split sep s = [s].
Proof.
  unfold split. induction s as [|c s IH]; intros H; [done|].
  apply find_None_cons in H as [H0 H].
  destruct (split_skip_cons _ _ _ H0) as (x & xs & E & ->).
  rewrite (IH H) in E. by inversion E.
Qed.

(** The first piece ends at the first occurrence; the scan goes on behind
    the separator found there. *)
Lemma split_find_Some sep s i :
  sep ≠ [] → find sep s = Some i →
  split sep s = take i s :: split sep (drop (i + length sep) s).
Proof.
  intros Hsep. unfold split. revert i.
  induction s as [|c s IH]; intros i H.
  - by rewrite find_nil_r in H.
  - apply find_Some_cons in H as [[-> H]|(j & -> & Hno & H)].
    + rewrite split_skip_cons_0, H, split_skip_drop. destruct sep as [|a sep]; [done|].
      simpl. by rewrite Nat.sub_0_r.
    + destruct (split_skip_cons _ _ _ Hno) as (x & xs & E & ->).
      rewrite (IH _ H) in E. inversion E; subst. done.
Qed.

Lemma join_nil_pair x : join [] [x; []] = x.
Proof. simpl. by rewrite app_nil_r. Qed.

Lemma replace_absent old new s : contains old s = false → replace old new s = s.
Proof.
  intros H. apply contains_false_find in H. unfold replace.
  by rewrite split_find_None.
Qed.

Lemma replace_suffix old x :
  old ≠ [] → find old (x ++ old) = Some (length x) →
  replace old [] (x ++ old) = x.
Proof.
  intros Hold H. unfold replace. rewrite (split_find_Some _ _ _ Hold H).
  rewrite take_app_length, drop_ge by (rewrite length_app; lia).
  unfold split. simpl. by rewrite app_nil_r.
Qed.

(** *** Splitting at a single character *)

Lemma starts_with_char c y s : starts_with [c] (y :: s) = (c =? y)%N.
Proof. simpl. apply andb_true_r. Qed.

Lemma split_char_cons c y s :
  split [c] (y :: s)
  = if (c =? y)%N then [] :: split [c] s
    else match split [c] s with
         | piece :: pieces => (y :: piece) :: pieces
         | [] => [[y]]
         end.
Proof. unfold split. by rewrite split_skip_cons_0, starts_with_char. Qed.

Lemma split_nonempty sep s : split sep s ≠ [].
Proof.
  unfold split. destruct s as [|c s]; [done|]. rewrite split_skip_cons_0.
  destruct (starts_with sep (c :: s)); [done|].
  by destruct (split_skip sep 0 s).
Qed.

(** The pieces of the text before a separator come first, those of the
    text behind it follow. *)
Lemma split_char_app c a b :
  split [c] (a ++ c :: b) = split [c] a ++ split [c] b.
Proof.
  induction a as [|y a IH].
  - simpl. by rewrite split_char_cons, N.eqb_refl.
  - rewrite <- app_comm_cons, !split_char_cons, IH.
    destruct (c =? y)%N; [done|].
    pose proof (split_nonempty [c] a) as Hne.
    by destruct (split [c] a).
Qed.

Lemma split_char_absent c s : c ∉ s → split [c] s = [s].
Proof.
  induction s as [|y s IH]; intros Hc; [done|].
  apply not_elem_of_cons in Hc as [Hy Hs]. rewrite split_char_cons, (IH Hs).
  destruct (N.eqb_spec c y); [done|done].
Qed.

(** No piece holds the separator. *)
Lemma split_char_fresh c s : Forall (λ piece, c ∉ piece) (split [c] s).
Proof.
  induction s as [|y s IH].
  - constructor; [|done]. by apply not_elem_of_nil.
  - rewrite split_char_cons. destruct (N.eqb_spec c y) as [->|Hy].
    + constructor; [|done]. by apply not_elem_of_nil.
    + destruct (split [c] s) as [|piece pieces].
      * constructor; [|done]. by intros [?|?%not_elem_of_nil]%elem_of_cons.
      * apply Forall_cons in IH as [Hp Hps]. constructor; [|done].
        by intros [?|?]%elem_of_cons.
Qed.

(** Joining lines and splitting the text again gives the lines back. *)
Lemma split_join_char c lines :
  lines ≠ [] → Forall (λ line, c ∉ line) lines →
  split [c] (join [c] lines) = lines.
Proof.
  induction lines as [|x lines IH]; [done|]. intros _ Hc.
  apply Forall_cons in Hc as [Hx Hlines].
  destruct lines as [|y lines]; [by apply split_char_absent|].
  change (join [c] (x :: y :: lines)) with (x ++ c :: join [c] (y :: lines)).
  rewrite split_char_app, (split_char_absent _ _ Hx), IH; done.
Qed.

(** *** Substrings *)

Lemma contains_infix p x y : contains p (x ++ p ++ y) = true.
Proof.
  apply contains_find. induction x as [|c x [i IH]].
  - exists 0. apply find_0. apply (starts_with_app p y).
  - rewrite <- app_comm_cons, find_cons.
    destruct (starts_with p (c :: x ++ p ++ y)); [by exists 0|].
    exists (S i). by rewrite IH.
Qed.

Lemma contains_inv p s : contains p s = true → ∃ x y, s = x ++ p ++ y.
Proof.
  intros [i Hi]%contains_find. destruct (find_Some _ _ _ Hi) as (Heq & _).
  by eexists _, _.
Qed.

Lemma lstrip_suffix s : ∃ x, s = x ++ lstrip s.
Proof.
  induction s as [|c s [x IH]]; [by exists []|]. simpl.
  destruct (is_space c); [|by exists []].
  exists (c :: x). simpl. by rewrite <- IH.
Qed.

(** What [strip] returns stands in the text. *)
Lemma strip_infix s : ∃ x y, s = x ++ strip s ++ y.
Proof.
  unfold strip, rstrip.
  destruct (lstrip_suffix (rev s)) as [y Hy].
  destruct (lstrip_suffix (rev (lstrip (rev s)))) as [x Hx].
  exists x, (rev y). rewrite app_assoc, <- Hx, <- rev_app_distr, <- Hy.
  by rewrite rev_involutive.
Qed.

Lemma join_infix sep line lines :
  line ∈ lines → ∃ x y, join sep lines = x ++ line ++ y.
Proof.
  induction lines as [|l lines IH]; [by intros ?%elem_of_nil|].
  intros [->|Hin]%elem_of_cons.
  - destruct lines as [|l' lines].
    + exists [], []. by rewrite app_nil_r.
    + by exists [], (sep ++ join sep (l' :: lines)).
  - destruct lines as [|l' lines]; [by apply elem_of_nil in Hin|].
    destruct (IH Hin) as (x & y & Heq).
    exists (l ++ sep ++ x), y.
    change (join sep (l :: l' :: lines)) with (l ++ sep ++ join sep (l' :: lines)).
    by rewrite Heq, <- !app_assoc.
Qed.

(** A pattern absent from the joined text is absent from every line. *)
Lemma contains_join_false p sep line lines :
  contains p (join sep lines) = false → line ∈ lines →
  contains p line = false.
Proof.
  intros Hjoin Hin. destruct (contains p line) eqn:E; [|done].
  destruct (contains_inv _ _ E) as (a & b & ->).
  destruct (join_infix sep _ _ Hin) as (x & y & Heq).
  rewrite Heq in Hjoin.
  replace (x ++ (a ++ p ++ b) ++ y) with ((x ++ a) ++ p ++ (b ++ y)) in Hjoin
    by (by rewrite <- !app_assoc).
  by rewrite contains_infix in Hjoin.
Qed.

End StrLemmas.

(** ** The response parser *)

Lemma delimiter_length : length delimiter = 3.
Proof. reflexivity. Qed.

Lemma delimiter_nonempty : delimiter ≠ [].
Proof. done. Qed.

Lemma annotation_nonempty : annotation ≠ [].
Proof. done. Qed.

(** The piece the source reads at index 1: what lies between the first
    delimiter and the next one. *)
Lemma split_delimiter_pieces text i :
  find delimiter text = Some i →
  let rest := drop (i + length delimiter) text in
  list_index (split delimiter text) 0 = ok (take i text)
  ∧ list_index (split delimiter text) 1 =
      ok (match find delimiter rest with
          | Some j => take j rest
          | None => rest
          end).
Proof.
  intros H rest. rewrite (split_find_Some _ _ _ delimiter_nonempty H).
  split; [done|]. fold rest. simpl.
  destruct (find delimiter rest) as [j|] eqn:E.
  - by rewrite (split_find_Some _ _ _ delimiter_nonempty E).
  - by rewrite (split_find_None _ _ E).
Qed.

Lemma cmd_string_pieces text i :
  find delimiter text = Some i →
  let rest := drop (i + length delimiter) text in
  let piece := match find delimiter rest with
               | Some j => take j rest
               | None => rest
               end in
  cmd_string (VStr text)
  = ok (take i text ++ py " # " ++ replace annotation (py "") piece).
Proof.
  intros H rest piece.
  destruct (split_delimiter_pieces _ _ H) as [H0 H1].
  unfold ok in *. cbv [cmd_string split_method rbind ok].
  by rewrite H0, H1.
Qed.

(** C1, as the code has it: for every text that contains the delimiter,
    [cmd_part] is everything left of its first occurrence; the comment is
    taken from the piece between that occurrence and the next one
    (everything right of the first when there is no second), with every
    occurrence of the annotation removed from it, so the piece is used
    unchanged when the annotation is absent and loses an annotation that
    ends it; the canonical string is [cmd_part # comment].  The sample input
    of the specification yields [ls -la # list files]. *)
Theorem cmd_string_first_delimiter :
  (∀ text : pystr,
     contains delimiter text = true →
     ∃ cmdPart rest : pystr,
       text = cmdPart ++ delimiter ++ rest
       ∧ find delimiter text = Some (length cmdPart)
       ∧ let piece := match find delimiter rest with
                      | Some j => take j rest
                      | None => rest
                      end in
         cmd_string (VStr text)
         = ok (cmdPart ++ py " # " ++ replace annotation (py "") piece)
         ∧ (contains annotation piece = false →
            cmd_string (VStr text) = ok (cmdPart ++ py " # " ++ piece))
         ∧ (∀ x, piece = x ++ annotation →
                 find annotation piece = Some (length x) →
                 cmd_string (VStr text) = ok (cmdPart ++ py " # " ++ x)))
  ∧ cmd_string (VStr (py "ls -la # list files * vity generated command"))
    = ok (py "ls -la # list files").
Proof.
  split; [|reflexivity].
  intros text Hin. apply contains_find in Hin as [i Hi].
  destruct (find_Some _ _ _ Hi) as (Heq & Hlen & _).
  exists (take i text), (drop (i + length delimiter) text).
  assert (length (take i text) = i) as Hi' by (rewrite length_take; lia).
  split; [done|]. split; [by rewrite Hi'|].
  intros piece. pose proof (cmd_string_pieces _ _ Hi) as Hcmd.
  cbv zeta in Hcmd. fold piece in Hcmd. split; [done|]. split.
  - intros Habs. by rewrite Hcmd, replace_absent.
  - intros x Hx Hfind. rewrite Hcmd, Hx.
    rewrite Hx in Hfind. change (py "") with (@nil N).
    by rewrite (replace_suffix _ _ annotation_nonempty Hfind).
Qed.

Lemma cmd_string_first_delimiter_witness :
  ∃ cmdPart rest : pystr,
    py "git status # show state" = cmdPart ++ delimiter ++ rest
    ∧ find delimiter (py "git status # show state") = Some (length cmdPart)
    ∧ let piece := match find delimiter rest with
                   | Some j => take j rest
                   | None => rest
                   end in
      cmd_string (VStr (py "git status # show state"))
      = ok (cmdPart ++ py " # " ++ replace annotation (py "") piece)
      ∧ (contains annotation piece = false →
         cmd_string (VStr (py "git status # show state"))
         = ok (cmdPart ++ py " # " ++ piece))
      ∧ (∀ x, piece = x ++ annotation →
              find annotation piece = Some (length x) →
              cmd_string (VStr (py "git status # show state"))
              = ok (cmdPart ++ py " # " ++ x)).
Proof.
  exact (proj1 cmd_string_first_delimiter (py "git status # show state")
           eq_refl).
Defined.

(** The text of the specification taken at its word differs from the code
    as soon as a second delimiter follows the first. *)
Lemma cmd_string_second_delimiter :
  contains delimiter (py "a # b # c") = true
  ∧ cmd_string (VStr (py "a # b # c")) = ok (py "a # b")
  ∧ spec_cmd_string (py "a # b # c") = py "a # b # c"
  ∧ cmd_string (VStr (py "a # b # c")) ≠ ok (spec_cmd_string (py "a # b # c")).
Proof. repeat split. discriminate. Qed.

(** ** The [do] and [chat] branch *)

(** Unfold the monad's operations and run the computation as far as it is
    determined. *)
Ltac mrun :=
  cbv beta iota zeta
    delta [bind lift ret raise ok throw print exists_file write_file
           append_file].

Section MainProperties.

Variable bash_history : pystr.
Variable resolve : pystr → pystr.
Variable read_error : pystr → option exn.
Variable open_error : pystr → option exn.
Variable json_loads : pystr → result pyval.
Variable json_dumps : list msg → pystr.
Variable generate_command : pystr → pyval → pystr → result (list msg).
Variable generate_chat_response : pystr → pyval → pystr → result (list msg).
Variable str_value : pyval → pystr.
Variable exn_str : exn → pystr.

Local Abbreviation client := (client_of generate_command generate_chat_response).
Local Abbreviation saved := (saved_files resolve json_dumps).
Local Abbreviation recorded := (recorded_files bash_history).
Local Abbreviation error_report := (error_line exn_str).
Local Abbreviation show := (format str_value).
Local Abbreviation save := (save_chat_history resolve open_error json_dumps).
Local Abbreviation savable := (can_save open_error).
Local Abbreviation render := (show_command bash_history str_value).
Local Abbreviation run :=
  (try_generate bash_history resolve open_error json_dumps generate_command
     generate_chat_response str_value exn_str).
Local Abbreviation vity :=
  (main bash_history resolve read_error open_error json_loads json_dumps
     generate_command generate_chat_response str_value exn_str).

(** *** Saving *)

Lemma save_chat_history_run a h w :
  savable a → save a h w = (World (saved a h (fs w)) (out w), ok tt).
Proof.
  unfold can_save, save_chat_history, saved_files.
  destruct (path_given _) as [p|]; intros H.
  - rewrite (H p eq_refl). reflexivity.
  - by destruct w.
Qed.

Lemma save_chat_history_fails a h p e w :
  path_given (chat_file a) = Some p → open_error p = Some e →
  save a h w = (w, throw e).
Proof. intros Hp He. unfold save_chat_history. by rewrite Hp, He. Qed.

Lemma save_cases a :
  savable a
  ∨ ∃ p e, path_given (chat_file a) = Some p ∧ open_error p = Some e.
Proof.
  unfold can_save. destruct (path_given _) as [p|]; [|by left].
  destruct (open_error p) as [e|] eqn:E.
  - right. by exists p, e.
  - left. by intros ? [= <-].
Qed.

(** *** Selection of the message *)

Lemma is_assistant_truthy m : is_assistant m = true → dict_truthy m = true.
Proof. by destruct m. Qed.

Lemma first_assistant_Some l m :
  first_assistant l = Some m ↔
  ∃ before after, l = before ++ m :: after
    ∧ is_assistant m = true
    ∧ Forall (λ m', is_assistant m' = false) before.
Proof.
  split.
  - induction l as [|x l IH]; [done|]. simpl.
    destruct (is_assistant x) eqn:E.
    + intros [= ->]. by exists [], l.
    + intros H. destruct (IH H) as (before & after & -> & Hm & Hbefore).
      exists (x :: before), after. repeat split; [done|by constructor].
  - intros (before & after & -> & Hm & Hbefore).
    induction Hbefore as [|x before Hx _ IH]; simpl.
    + by rewrite Hm.
    + by rewrite Hx.
Qed.

Lemma first_assistant_None l :
  first_assistant l = None ↔ Forall (λ m, is_assistant m = false) l.
Proof.
  induction l as [|x l IH]; simpl.
  - split; [by constructor|done].
  - destruct (is_assistant x) eqn:E.
    + split; [done|]. intros H. apply Forall_cons in H as [H _]. congruence.
    + rewrite IH. split; [by constructor|]. by intros [_ H]%Forall_cons.
Qed.

Lemma last_assistant_Some h m :
  last_assistant_msg h = Some m ↔
  ∃ before after, h = before ++ m :: after
    ∧ is_assistant m = true
    ∧ Forall (λ m', is_assistant m' = false) after.
Proof.
  unfold last_assistant_msg. rewrite first_assistant_Some. split.
  - intros (x & y & Hrev & Hm & Hx). exists (rev y), (rev x).
    repeat split; [|done|by apply Forall_rev].
    apply (f_equal (@rev msg)) in Hrev. rewrite rev_involutive in Hrev.
    rewrite Hrev, rev_app_distr. simpl. by rewrite <- app_assoc.
  - intros (before & after & -> & Hm & Hafter). exists (rev after), (rev before).
    repeat split; [|done|by apply Forall_rev].
    rewrite rev_app_distr. simpl. by rewrite <- app_assoc.
Qed.

Lemma last_assistant_None h :
  last_assistant_msg h = None ↔ Forall (λ m, is_assistant m = false) h.
Proof.
  unfold last_assistant_msg. rewrite first_assistant_None.
  split; intros H.
  - rewrite <- (rev_involutive h). by apply Forall_rev.
  - by apply Forall_rev.
Qed.

(** The [try] block is the branch under the handler. *)
Lemma run_handled a th ch ui w :
  run a th ch ui w
  = handled exn_str
      (match cmd a with
       | Do => do_branch bash_history resolve open_error json_dumps
                 generate_command str_value a th ch ui
       | Chat => chat_branch resolve open_error json_dumps
                   generate_chat_response str_value a th ch ui
       end w).
Proof. reflexivity. Qed.

(** What the [try] block does once the client has answered: with a last
    assistant message, the [do] branch renders it and the [chat] branch
    prints its text; without one, nothing; the save comes last. *)
Lemma run_do_selected a th ch ui h m w :
  cmd a = Do →
  generate_command th ch ui = ok h →
  last_assistant_msg h = Some m →
  run a th ch ui w = handled exn_str ((render m;; save a h) w).
Proof.
  intros Ha Hgen Hlast.
  assert (dict_truthy m = true) as Hm.
  { apply last_assistant_Some in Hlast as (? & ? & _ & Hm & _).
    by apply is_assistant_truthy. }
  rewrite run_handled, Ha. unfold do_branch. mrun. rewrite Hgen. mrun.
  by rewrite Hlast, Hm.
Qed.

Lemma run_chat_selected a th ch ui h m v w :
  cmd a = Chat →
  generate_chat_response th ch ui = ok h →
  last_assistant_msg h = Some m →
  content_text m = ok v →
  run a th ch ui w
  = handled exn_str (save a h (World (fs w) (out w ++ [show v]))).
Proof.
  intros Ha Hgen Hlast Hc.
  assert (dict_truthy m = true) as Hm.
  { apply last_assistant_Some in Hlast as (? & ? & _ & Hm & _).
    by apply is_assistant_truthy. }
  rewrite run_handled, Ha. unfold chat_branch. mrun. rewrite Hgen. mrun.
  rewrite Hlast, Hm, Hc. reflexivity.
Qed.

Lemma run_no_assistant a th ch ui h w :
  client a th ch ui = ok h →
  last_assistant_msg h = None →
  run a th ch ui w = handled exn_str (save a h w).
Proof.
  intros Hgen Hnone. rewrite run_handled. unfold client_of in Hgen.
  destruct (cmd a); unfold do_branch, chat_branch; mrun;
    rewrite Hgen; mrun; rewrite Hnone; mrun; by destruct (save a h w) as [? [?|?]].
Qed.

(** C6: the message the branch works on is the last one of the updated
    history with role [assistant], whatever stands before it: the [do]
    branch renders that message and the [chat] branch prints its text, and
    then the history is saved.  Of the four messages user, assistant, user,
    assistant it is the fourth whose text is printed.  A history without an
    assistant message selects nothing: the branch goes straight to the save
    and prints nothing. *)
Theorem last_assistant_selection (a : args) (th ui : pystr) (ch : pyval)
    (w : world) :
  (∀ before m after,
     client a th ch ui = ok (before ++ m :: after) →
     is_assistant m = true →
     Forall (λ m', is_assistant m' = false) after →
     last_assistant_msg (before ++ m :: after) = Some m
     ∧ (cmd a = Do →
        run a th ch ui w
        = handled exn_str ((render m;; save a (before ++ m :: after)) w))
     ∧ (cmd a = Chat → ∀ v, content_text m = ok v →
        run a th ch ui w
        = handled exn_str
            (save a (before ++ m :: after)
               (World (fs w) (out w ++ [show v])))))
  ∧ (∀ u1 a1 u2 a2 v,
       cmd a = Chat →
       client a th ch ui = ok [u1; a1; u2; a2] →
       is_assistant a2 = true →
       content_text a2 = ok v →
       last_assistant_msg [u1; a1; u2; a2] = Some a2
       ∧ ∃ more, out (run a th ch ui w).1 = out w ++ show v :: more)
  ∧ (∀ h,
       client a th ch ui = ok h →
       Forall (λ m, is_assistant m = false) h →
       last_assistant_msg h = None
       ∧ run a th ch ui w = handled exn_str (save a h w)
       ∧ (savable a →
          run a th ch ui w = (World (saved a h (fs w)) (out w), 0%Z))).
Proof.
  split; [|split].
  - intros before m after Hgen Hm Hafter.
    assert (last_assistant_msg (before ++ m :: after) = Some m) as Hlast.
    { apply last_assistant_Some. by exists before, after. }
    split; [done|]. unfold client_of in Hgen. split; intros Ha.
    + rewrite Ha in Hgen. by apply run_do_selected.
    + intros v Hv. rewrite Ha in Hgen. by eapply run_chat_selected.
  - intros u1 a1 u2 a2 v Ha Hgen Ha2 Hv.
    assert (last_assistant_msg [u1; a1; u2; a2] = Some a2) as Hlast.
    { apply last_assistant_Some. exists [u1; a1; u2], []. by repeat split. }
    split; [done|]. unfold client_of in Hgen. rewrite Ha in Hgen.
    rewrite (run_chat_selected _ _ _ _ _ _ _ _ Ha Hgen Hlast Hv).
    destruct (save_cases a) as [Hs|(p & e & Hp & He)].
    + rewrite (save_chat_history_run _ _ _ Hs). exists []. reflexivity.
    + rewrite (save_chat_history_fails _ _ _ _ _ Hp He).
      exists [error_report e]. unfold throw. cbn [handled fst fs out].
      by rewrite <- app_assoc.
  - intros h Hgen Hh. apply last_assistant_None in Hh.
    split; [done|]. split; [by apply run_no_assistant|].
    intros Hs. rewrite (run_no_assistant _ _ _ _ _ _ Hgen Hh).
    by rewrite (save_chat_history_run _ _ _ Hs).
Qed.

(** *** Loading *)

Lemma load_terminal_history_frame a w w1 r :
  load_terminal_history resolve read_error a w = (w1, r) →
  fs w1 = fs w ∧ ∃ printed, out w1 = out w ++ printed.
Proof.
  unfold load_terminal_history. destruct (path_given _) as [p|].
  - destruct (fs w !! resolve p) as [text|].
    + destruct (read_error p); intros [= <- _]; split; try done;
        exists []; by rewrite app_nil_r.
    + intros [= <- _]. split; [done|]. by eexists.
  - intros [= <- _]. split; [done|]. exists []. by rewrite app_nil_r.
Qed.

Lemma load_chat_history_frame a w w1 r :
  load_chat_history resolve read_error json_loads a w = (w1, r) →
  fs w1 = fs w ∧ ∃ printed, out w1 = out w ++ printed.
Proof.
  assert (fs w = fs w ∧ ∃ printed, out w = out w ++ printed) as Hsame
    by (split; [done|]; exists []; by rewrite app_nil_r).
  unfold load_chat_history. destruct (path_given _) as [p|].
  - destruct (fs w !! resolve p) as [text|].
    + destruct (read_error p); [by intros [= <- _]|].
      destruct (json_loads text) as [[]|v]; try (by intros [= <- _]).
      intros [= <- _]. split; [done|]. by eexists.
    + by intros [= <- _].
  - by intros [= <- _].
Qed.

(** [main] is the [try] block run on what the two loads return, in the
    world they leave, whose files are the ones it started with. *)
Lemma main_run a w w1 w2 th ch :
  load_terminal_history resolve read_error a w = (w1, ok th) →
  load_chat_history resolve read_error json_loads a w1 = (w2, ok ch) →
  vity a w
  = run a th ch (join (py " ") (prompt a))
      (World (fs w) (out w2 ++ [thinking])).
Proof.
  intros H1 H2.
  destruct (load_terminal_history_frame _ _ _ _ H1) as [Hfs1 _].
  destruct (load_chat_history_frame _ _ _ _ H2) as [Hfs2 _].
  unfold main. mrun. rewrite H1. mrun. rewrite H2. cbn [fs out].
  by rewrite Hfs2, Hfs1.
Qed.

(** When a load lets an exception through, the process ends with status 1
    before the progress line. *)
Lemma main_load_fails a w :
  (∃ e, load_terminal_history resolve read_error a w = (w, throw e)
        ∧ vity a w = (w, 1%Z))
  ∨ (∃ w1 th,
       load_terminal_history resolve read_error a w = (w1, ok th)
       ∧ ((∃ e, load_chat_history resolve read_error json_loads a w1
                = (w1, throw e)
                ∧ vity a w = (w1, 1%Z))
          ∨ ∃ w2 ch,
              load_chat_history resolve read_error json_loads a w1
              = (w2, ok ch))).
Proof.
  destruct (load_terminal_history resolve read_error a w) as [w1 [e|th]] eqn:H1.
  - left. exists e.
    assert (w1 = w) as ->.
    { revert H1. unfold load_terminal_history.
      destruct (path_given _) as [p|]; [|done].
      destruct (fs w !! resolve p); [|done].
      destruct (read_error p); by intros [= <- _]. }
    split; [done|]. unfold main. mrun. by rewrite H1.
  - right. exists w1, th. split; [done|].
    destruct (load_chat_history resolve read_error json_loads a w1)
      as [w2 [e|ch]] eqn:H2.
    + left. exists e.
      assert (w2 = w1) as ->.
      { revert H2. unfold load_chat_history.
        destruct (path_given _) as [p|]; [|done].
        destruct (fs w1 !! resolve p); [|done].
        destruct (read_error p); [by intros [= <- _]|].
        destruct (json_loads _) as [[]|]; by intros [= <- _]. }
      split; [done|]. unfold main. mrun. rewrite H1. mrun. by rewrite H2.
    + right. by exists w2, ch.
Qed.

(** The outcomes of [main]: a load lets an exception through and the files
    are as they were, or the [try] block runs on the files as they were. *)
Lemma main_cases a w :
  (∃ printed, vity a w = (World (fs w) (out w ++ printed), 1%Z))
  ∨ (∃ th ch w1 w2,
       load_terminal_history resolve read_error a w = (w1, ok th)
       ∧ load_chat_history resolve read_error json_loads a w1 = (w2, ok ch)
       ∧ vity a w
         = run a th ch (join (py " ") (prompt a))
             (World (fs w) (out w2 ++ [thinking]))).
Proof.
  destruct (main_load_fails a w)
    as [(e & _ & ->)|(w1 & th & H1 & [(e & _ & ->)|(w2 & ch & H2)])].
  - left. exists []. rewrite app_nil_r. by destruct w.
  - left. destruct (load_terminal_history_frame _ _ _ _ H1) as [Hfs [l Hl]].
    exists l. rewrite <- Hfs, <- Hl. by destruct w1.
  - right. exists th, ch, w1, w2. split; [done|]. split; [done|].
    exact (main_run _ _ _ _ _ _ H1 H2).
Qed.

(** The three outcomes of the load that the code handles: no file, text
    that is not JSON, and JSON. *)
Lemma load_chat_history_handled (a : args) (p : pystr) (w : world) :
  path_given (chat_file a) = Some p →
  (fs w !! resolve p = None →
     load_chat_history resolve read_error json_loads a w = (w, ok (VList [])))
  ∧ (∀ text, fs w !! resolve p = Some text → read_error p = None →
       json_loads text = throw JSONDecodeError →
       load_chat_history resolve read_error json_loads a w
       = (World (fs w) (out w ++ [chat_warning p]), ok (VList [])))
  ∧ (∀ text chat_history,
       fs w !! resolve p = Some text → read_error p = None →
       json_loads text = ok chat_history →
       load_chat_history resolve read_error json_loads a w
       = (w, ok chat_history)).
Proof.
  intros Hp. unfold load_chat_history. rewrite Hp. repeat split.
  - by intros ->.
  - intros text -> -> ->. done.
  - intros text v -> -> ->. done.
Qed.

(** C7 fails on the code where the chat file is there and cannot be read as
    text, or holds what the JSON reader gives up on with another exception
    than [JSONDecodeError]: no handler of lines 146-154 takes the
    exception, and the load stands before the [try] block, so the process
    ends with status 1; no warning and no progress line is printed, and the
    client is not called. *)
Theorem load_chat_history_escapes (a : args) (p text : pystr) (e : exn)
    (w w1 : world) (th : pystr) :
  path_given (chat_file a) = Some p →
  fs w !! resolve p = Some text →
  read_error p = Some e
  ∨ (read_error p = None ∧ json_loads text = throw e ∧ e ≠ JSONDecodeError) →
  load_terminal_history resolve read_error a w = (w1, ok th) →
  load_chat_history resolve read_error json_loads a w1 = (w1, throw e)
  ∧ vity a w = (w1, 1%Z).
Proof.
  intros Hp Hfile He H1.
  destruct (load_terminal_history_frame _ _ _ _ H1) as [Hfs _].
  assert (load_chat_history resolve read_error json_loads a w1
          = (w1, throw e)) as H2.
  { unfold load_chat_history. rewrite Hp, Hfs, Hfile.
    destruct He as [->|(-> & -> & Hne)]; [done|]. by destruct e. }
  split; [done|]. unfold main. mrun. rewrite H1. mrun. by rewrite H2.
Qed.

(** *** The handler *)

Lemma run_client_fails a th ch ui e w :
  client a th ch ui = throw e →
  run a th ch ui w = (World (fs w) (out w ++ [error_report e]), 1%Z).
Proof.
  intros Hgen. unfold try_generate, client_of in *.
  destruct (cmd a); unfold do_branch, chat_branch; mrun; by rewrite Hgen.
Qed.

(** C8: when the call of the model client raises, the invocation prints the
    error report after what it had printed before the call, exits with
    status 1 and leaves every file, the chat history among them, as it
    found it. *)
Theorem client_failure_exits_1 (a : args) (w w1 w2 : world)
    (th : pystr) (ch : pyval) (e : exn) :
  load_terminal_history resolve read_error a w = (w1, ok th) →
  load_chat_history resolve read_error json_loads a w1 = (w2, ok ch) →
  client a th ch (join (py " ") (prompt a)) = throw e →
  vity a w = (World (fs w) (out w2 ++ [thinking; error_report e]), 1%Z).
Proof.
  intros H1 H2 Hgen. rewrite (main_run _ _ _ _ _ _ H1 H2).
  rewrite (run_client_fails _ _ _ _ _ _ Hgen). cbn [fs out].
  by rewrite <- app_assoc.
Qed.

(** *** Extraction of the text *)

(** Two of the three degraded shapes give the empty string: no [content]
    key, and a first part without a [text] entry. *)
Lemma content_text_defaults (m : msg) :
  (dict_get (py "content") m = None → content_text m = ok (VStr (py "")))
  ∧ (∀ part parts,
       dict_get (py "content") m = Some (VList (VDict part :: parts)) →
       dict_get (py "text") part = None →
       content_text m = ok (VStr (py ""))).
Proof.
  unfold content_text. split.
  - by intros ->.
  - intros part parts -> Hpart. cbn. by rewrite Hpart.
Qed.

(** C4 at the third shape: an assistant message whose list of parts is
    empty makes the subscript raise [IndexError]; the handler reports it and
    the process exits with status 1, in the [do] and in the [chat] branch. *)
Theorem empty_content_raises (a : args) (th ui : pystr) (ch : pyval) (w : world) :
  content_text assistant_empty = throw IndexError
  ∧ try_generate bash_history resolve open_error json_dumps
      (answers [assistant_empty]) (answers [assistant_empty]) str_value
      exn_str a th ch ui w
    = (World (fs w) (out w ++ [error_report IndexError]), 1%Z).
Proof.
  split; [reflexivity|].
  unfold try_generate. destruct (cmd a); reflexivity.
Qed.

(** *** The [do] branch *)

Lemma show_command_delimiter m text s w :
  content_text m = ok (VStr text) →
  contains delimiter text = true →
  cmd_string (VStr text) = ok s →
  show_command bash_history str_value m w
  = (World (recorded (history_line s) (fs w)) (out w ++ [py "Command: " ++ s]),
     ok tt).
Proof.
  intros Hc Hd Hs. unfold show_command. mrun. rewrite Hc. mrun.
  cbn [in_test]. mrun. rewrite Hd. mrun. rewrite Hs. mrun. cbn [fs out].
  unfold recorded_files.
  destruct (fs w !! bash_history) as [old|] eqn:E.
  - rewrite bool_decide_true by done. mrun. cbn [fs out]. by rewrite E.
  - rewrite bool_decide_false by (by intros [? ?]). reflexivity.
Qed.

Lemma show_command_no_delimiter m text w :
  content_text m = ok (VStr text) →
  contains delimiter text = false →
  show_command bash_history str_value m w
  = (World (fs w) (out w ++ [py "Command: " ++ text]), ok tt).
Proof.
  intros Hc Hd. unfold show_command. mrun. rewrite Hc. mrun.
  cbn [in_test]. mrun. by rewrite Hd.
Qed.

(** C9: a text without the delimiter is the command string as a whole: it
    is printed as it is after [Command: ], no comment is put behind it, and
    no file changes. *)
Theorem show_command_plain (m : msg) (text : pystr) (w : world) :
  content_text m = ok (VStr text) →
  contains delimiter text = false →
  in_test delimiter (VStr text) = ok false
  ∧ show_command bash_history str_value m w
    = (World (fs w) (out w ++ [py "Command: " ++ text]), ok tt).
Proof.
  intros Hc Hd. split; [by cbn [in_test]; rewrite Hd|].
  by apply show_command_no_delimiter.
Qed.

(** *** The [chat] branch *)

(** The [try] block of a [chat] invocation leaves the files alone or saves a
    history. *)
Lemma chat_run_files a th ch ui w :
  cmd a = Chat →
  fs (run a th ch ui w).1 = fs w
  ∨ ∃ h, fs (run a th ch ui w).1 = saved a h (fs w).
Proof.
  intros Ha. rewrite run_handled, Ha. unfold chat_branch. mrun.
  assert (∀ h w0, fs w0 = fs w →
            fs (handled exn_str (save a h w0)).1 = fs w
            ∨ ∃ h', fs (handled exn_str (save a h w0)).1 = saved a h' (fs w))
    as Hsave.
  { intros h w0 Hw0. destruct (save_cases a) as [Hs|(p & e & Hp & He)].
    - right. exists h. rewrite (save_chat_history_run _ _ _ Hs).
      cbn [handled fst fs]. by rewrite Hw0.
    - left. by rewrite (save_chat_history_fails _ _ _ _ _ Hp He). }
  destruct (generate_chat_response th ch ui) as [e|h]; mrun; [by left|].
  destruct (last_assistant_msg h) as [m|]; mrun; cycle 1.
  { specialize (Hsave h w eq_refl). by destruct (save a h w) as [? [?|?]]. }
  destruct (dict_truthy m); mrun; cycle 1.
  { specialize (Hsave h w eq_refl). by destruct (save a h w) as [? [?|?]]. }
  destruct (content_text m) as [e|v]; mrun; [by left|].
  exact (Hsave h (World (fs w) (out w ++ [show v])) eq_refl).
Qed.

Lemma saved_other a h files q :
  (∀ p, path_given (chat_file a) = Some p → resolve p ≠ q) →
  saved a h files !! q = files !! q.
Proof.
  unfold saved_files. destruct (path_given _) as [p|]; [|done].
  intros Hq. apply lookup_insert_ne. by apply Hq.
Qed.

End MainProperties.
(** *** The theorems at sample inputs *)

Lemma last_assistant_selection_witness :
  let a := Args Chat [py "hi"] None None in
  let h := [user_says (py "a"); assistant_says (py "b");
            user_says (py "c"); assistant_says (py "d")] in
  last_assistant_msg h = Some (assistant_says (py "d"))
  ∧ ∃ more,
      out (try_generate sample_bash_history sample_resolve sample_open_error
             sample_dumps (answers h) (answers h) sample_str_value
             sample_exn_str a (py "") (VList []) (py "hi") (World ∅ [])).1
      = [] ++ py "d" :: more.
Proof.
  intros a h.
  exact (proj1 (proj2 (last_assistant_selection sample_bash_history
                         sample_resolve sample_open_error sample_dumps
                         (answers h) (answers h) sample_str_value
                         sample_exn_str a (py "") (py "hi") (VList [])
                         (World ∅ [])))
           (user_says (py "a")) (assistant_says (py "b"))
           (user_says (py "c")) (assistant_says (py "d")) (VStr (py "d"))
           eq_refl eq_refl eq_refl eq_refl).
Defined.

Lemma load_chat_history_escapes_witness :
  let a := Args Chat [py "hi"] None (Some sample_binary) in
  let w := World {[ sample_binary := py "" ]} [] in
  load_chat_history sample_resolve sample_read_error sample_loads a w
  = (w, throw UnicodeDecodeError)
  ∧ sample_main (answers [assistant_says (py "hello")]) a w = (w, 1%Z).
Proof.
  intros a w.
  exact (load_chat_history_escapes sample_bash_history sample_resolve
           sample_read_error sample_open_error sample_loads sample_dumps
           (answers [assistant_says (py "hello")])
           (answers [assistant_says (py "hello")])
           sample_str_value sample_exn_str a sample_binary (py "")
           UnicodeDecodeError w w (py "")
           eq_refl (lookup_singleton_eq _ _) (or_introl eq_refl) eq_refl).
Defined.

Lemma client_failure_exits_1_witness :
  sample_main (fails (py "timeout"))
    (Args Do [py "list"; py "files"] None (Some sample_chat))
    (World {[ sample_chat := py "[]" ]} [])
  = (World {[ sample_chat := py "[]" ]}
       [thinking; error_line sample_exn_str (ClientError (py "timeout"))],
     1%Z).
Proof.
  exact (client_failure_exits_1 sample_bash_history sample_resolve
           sample_read_error sample_open_error sample_loads sample_dumps
           (fails (py "timeout")) (fails (py "timeout"))
           sample_str_value sample_exn_str
           (Args Do [py "list"; py "files"] None (Some sample_chat))
           (World {[ sample_chat := py "[]" ]} [])
           (World {[ sample_chat := py "[]" ]} [])
           (World {[ sample_chat := py "[]" ]} [])
           (py "") (VList []) (ClientError (py "timeout"))
           eq_refl eq_refl eq_refl).
Defined.

Lemma show_command_plain_witness :
  show_command sample_bash_history sample_str_value
    (assistant_says (py "hello there")) (World ∅ [])
  = (World ∅ [py "Command: hello there"], ok tt).
Proof.
  exact (proj2 (show_command_plain sample_bash_history sample_str_value
                  (assistant_says (py "hello there")) (py "hello there")
                  (World ∅ []) eq_refl eq_refl)).
Defined.

(** C3 fails on the code for a text without the delimiter: with the reply
    [ls] and a shell history that exists, the [do] branch prints
    [Command: ls] and ends with status 0, and the shell history stays as it
    was: the line [ls # Vity generated] is not added. *)
Theorem do_plain_text_not_recorded :
  let a := Args Do [py "list"; py "files"] None None in
  let h := [user_says (py "list files"); assistant_says (py "ls")] in
  let w := World {[ sample_bash_history := py "cd /tmp" ++ nl ]} [] in
  last_assistant_msg h = Some (assistant_says (py "ls"))
  ∧ sample_main (answers h) a w
    = (World {[ sample_bash_history := py "cd /tmp" ++ nl ]}
         [thinking; py "Command: ls"], 0%Z)
  ∧ fs (sample_main (answers h) a w).1 !! sample_bash_history
    ≠ Some (py "cd /tmp" ++ nl ++ history_line (py "ls")).
Proof. repeat split. discriminate. Qed.

(** With the delimiter in the reply, the same invocation does add the line
    to the shell history. *)
Example do_delimited_text_recorded :
  let a := Args Do [py "list"; py "files"] None None in
  let h := [user_says (py "list files");
            assistant_says (py "ls -la # list files * vity generated command")] in
  let w := World {[ sample_bash_history := py "cd /tmp" ++ nl ]} [] in
  sample_main (answers h) a w
  = (World {[ sample_bash_history :=
                py "cd /tmp" ++ nl
                ++ py "ls -la # list files # Vity generated" ++ nl ]}
       [thinking; py "Command: ls -la # list files"], 0%Z).
Proof. reflexivity. Qed.

(** C10 as stated fails when the chat path given names the shell history:
    the [chat] branch then saves the updated history over it. *)
Lemma chat_overwrites_shell_history :
  let a := Args Chat [py "hi"] None (Some sample_bash_history) in
  let h := [user_says (py "hi"); assistant_says (py "hello")] in
  let w := World {[ sample_bash_history := py "cd /tmp" ++ nl ]} [] in
  let w' := (sample_main (answers h) a w).1 in
  fs w !! sample_bash_history = Some (py "cd /tmp" ++ nl)
  ∧ fs w' !! sample_bash_history = Some (sample_dumps h)
  ∧ fs w' !! sample_bash_history ≠ fs w !! sample_bash_history.
Proof. repeat split. discriminate. Qed.

(** The same under another spelling of the path: [.bash_history], typed in
    the home directory. *)
Example chat_overwrites_by_relative_path :
  let a := Args Chat [py "hi"] None (Some (py ".bash_history")) in
  let h := [user_says (py "hi"); assistant_says (py "hello")] in
  let w := World {[ sample_bash_history := py "cd /tmp" ++ nl ]} [] in
  fs (sample_main (answers h) a w).1 !! sample_bash_history
  = Some (sample_dumps h).
Proof. reflexivity. Qed.

(** A chat file in a directory that is not there: the reply is printed, the
    save raises inside the [try] block, and the status is 1. *)
Example chat_save_fails :
  let a := Args Chat [py "hi"] None (Some sample_missing_dir) in
  let h := [user_says (py "hi"); assistant_says (py "hello")] in
  sample_main (answers h) a (World ∅ [])
  = (World ∅
       [thinking; py "hello";
        py "❌ Error: [Errno 2] No such file or directory: '/nowhere/chat.json'"],
     1%Z).
Proof. reflexivity. Qed.

(** ** Shell integration *)

Lemma marker_nonempty : marker ≠ [].
Proof. done. Qed.

Lemma marker_one_line : 10%N ∉ marker.
Proof. vm_compute. intros H. by repeat (inversion_clear H as [|? ? ? H']; rename H' into H). Qed.

Lemma script_has_marker : occurrences marker (nl ++ script_content) = 1.
Proof. vm_compute. reflexivity. Qed.

Lemma script_is_one_block :
  count_blocks false (split nl script_content) = 1.
Proof. vm_compute. reflexivity. Qed.

Section Occurrences.
Implicit Types p s r : pystr.

Lemma occurrences_nil p : p ≠ [] → occurrences p [] = 0.
Proof. by destruct p. Qed.

Lemma occurrences_cons p c s :
  occurrences p (c :: s)
  = (if starts_with p (c :: s) then 1 else 0) + occurrences p s.
Proof. done. Qed.

(** No occurrence reaches across a character the pattern does not hold. *)
Lemma occurrences_app_fresh p s c r :
  p ≠ [] → c ∉ p →
  occurrences p (s ++ c :: r) = occurrences p s + occurrences p (c :: r).
Proof.
  intros Hp Hc. induction s as [|y s IH].
  - by rewrite occurrences_nil.
  - rewrite <- app_comm_cons.
    rewrite (occurrences_cons p y (s ++ c :: r)), (occurrences_cons p y s), IH.
    rewrite (app_comm_cons s (c :: r) y), (starts_with_app_fresh _ _ _ _ Hc).
    apply Nat.add_assoc.
Qed.

Lemma contains_occurrences p s : contains p s = true ↔ 0 < occurrences p s.
Proof.
  unfold contains. induction s as [|c s IH].
  - destruct p; simpl; split; intros; try done; lia.
  - rewrite find_cons, occurrences_cons.
    destruct (starts_with p (c :: s)); [split; intros; [lia|done]|].
    destruct (find p s); simpl in *; rewrite <- IH; done.
Qed.

Lemma contains_false_occurrences p s :
  contains p s = false ↔ occurrences p s = 0.
Proof.
  pose proof (contains_occurrences p s) as H.
  destruct (contains p s).
  - split; [done|]. intros H0. assert (0 < occurrences p s) by by apply H. lia.
  - split; [intros _|done]. destruct (occurrences p s); [done|].
    assert (false = true) by (apply H; lia). done.
Qed.

End Occurrences.

Section InstallerProperties.

Variable bashrc : pystr.

Local Abbreviation install := (install_shell_integration bashrc).
Local Abbreviation reinstall := (reinstall_shell_integration bashrc).

Lemma install_files w : fs (install w).1 = installed bashrc (fs w).
Proof.
  unfold install_shell_integration, installed. mrun. cbn [fs out].
  destruct (fs w !! bashrc) as [content|] eqn:E.
  - rewrite bool_decide_true by done. mrun. cbn [fs out]. rewrite E.
    cbn [default from_option id]. destruct (contains marker content); reflexivity.
  - by rewrite bool_decide_false by (by intros [? ?]).
Qed.

Lemma installed_marked files content :
  files !! bashrc = Some content →
  contains marker content = true →
  installed bashrc files = files.
Proof. intros Hf Hc. unfold installed. by rewrite Hf, Hc. Qed.

Lemma installed_fresh files content :
  files !! bashrc = Some content →
  contains marker content = false →
  installed bashrc files = <[bashrc := content ++ nl ++ script_content]> files.
Proof. intros Hf Hc. unfold installed. by rewrite Hf, Hc. Qed.

(** The text [install] adds brings exactly one marker, and none arises
    where it meets the old text. *)
Lemma occurrences_installed content :
  occurrences marker (content ++ nl ++ script_content)
  = occurrences marker content + 1.
Proof.
  change (nl ++ script_content) with (10%N :: script_content).
  rewrite (occurrences_app_fresh _ _ _ _ marker_nonempty marker_one_line).
  apply (f_equal (Nat.add _)). exact script_has_marker.
Qed.

(** On a profile whose text already holds the marker [install] changes no
    file, and a second [install] changes nothing after the first. *)
Lemma install_idempotent (w : world) (content : pystr) :
  fs w !! bashrc = Some content →
  (contains marker content = true → fs (install w).1 = fs w)
  ∧ fs (install (install w).1).1 = fs (install w).1.
Proof.
  intros Hf. rewrite !install_files.
  destruct (contains marker content) eqn:Hc.
  - by rewrite (installed_marked _ _ Hf Hc), (installed_marked _ _ Hf Hc).
  - rewrite (installed_fresh _ _ Hf Hc).
    assert (contains marker (content ++ nl ++ script_content) = true) as Hc'.
    { apply contains_occurrences. rewrite occurrences_installed. lia. }
    by rewrite (installed_marked _ _ (lookup_insert_eq _ _ _) Hc').
Qed.


(** *** Reinstalling *)

Lemma scan_line_acc new in_sec line :
  scan_line new in_sec line
  = (new ++ (scan_line [] in_sec line).1.1,
     (scan_line [] in_sec line).1.2, (scan_line [] in_sec line).2).
Proof.
  unfold scan_line. destruct (str_eqb (strip line) marker).
  - by rewrite app_nil_r.
  - destruct (in_sec && str_eqb (strip line) (py "}")).
    + by rewrite app_nil_r.
    + destruct (negb in_sec); [done|]. by rewrite app_nil_r.
Qed.

(** The loop prints, changes no file and returns the lines it keeps. *)
Lemma scan_lines_run lines new in_sec w :
  ∃ printed,
    scan_lines lines new in_sec w
    = (World (fs w) (out w ++ printed), ok (new ++ kept_lines in_sec lines)).
Proof.
  revert new in_sec w. induction lines as [|line lines IH]; intros new in_sec w.
  - exists []. rewrite !app_nil_r. by destruct w.
  - cbn [scan_lines kept_lines]. rewrite (scan_line_acc new).
    destruct (scan_line [] in_sec line) as [[k in_sec'] removing].
    cbn [fst snd]. destruct removing; mrun.
    + destruct (IH (new ++ k) in_sec'
                  (World (fs w)
                     (out w ++ [py "🗑️  Removing existing shell integration..."])))
        as [printed ->]. cbn [fs out]. eexists.
      by rewrite <- !app_assoc.
    + destruct (IH (new ++ k) in_sec' w) as [printed ->]. eexists.
      by rewrite <- !app_assoc.
Qed.

Lemma kept_lines_outside lines rest :
  Forall (λ l, is_marker_line l = false) lines →
  kept_lines false (lines ++ rest) = lines ++ kept_lines false rest.
Proof.
  induction 1 as [|l lines Hl _ IH]; [done|].
  cbn [app kept_lines]. unfold scan_line. unfold is_marker_line in Hl.
  rewrite Hl. cbn [andb negb app]. by rewrite IH.
Qed.

Lemma kept_lines_inside body c rest :
  Forall (λ l, is_close_line l = false) body →
  is_close_line c = true →
  kept_lines true (body ++ c :: rest) = kept_lines false rest.
Proof.
  intros Hbody Hc. induction Hbody as [|l body Hl _ IH].
  - cbn [app kept_lines]. unfold scan_line. unfold is_close_line in Hc.
    rewrite Hc. apply bool_decide_eq_true in Hc. rewrite Hc.
    change (str_eqb (py "}") marker) with false. done.
  - cbn [app kept_lines]. unfold scan_line. unfold is_close_line in Hl.
    rewrite Hl. destruct (str_eqb (strip l) marker); exact IH.
Qed.

(** With one block in the profile the loop keeps the lines around it. *)
Lemma kept_lines_block before m body c after :
  is_marker_line m = true → is_close_line c = true →
  Forall (λ l, is_close_line l = false) body →
  Forall (λ l, is_marker_line l = false) (before ++ after) →
  kept_lines false (before ++ m :: body ++ c :: after) = before ++ after.
Proof.
  intros Hm Hc Hbody [Hbefore Hafter]%Forall_app.
  rewrite (kept_lines_outside _ _ Hbefore). f_equal.
  cbn [kept_lines]. unfold scan_line. unfold is_marker_line in Hm.
  rewrite Hm. cbn [app]. rewrite (kept_lines_inside _ _ _ Hbody Hc).
  rewrite <- (app_nil_r after) at 1.
  by rewrite (kept_lines_outside _ _ Hafter), app_nil_r.
Qed.

(** The files after [reinstall]: the profile rewritten from the lines kept,
    then [install]. *)
Lemma reinstall_files w content :
  fs w !! bashrc = Some content →
  fs (reinstall w).1
  = installed bashrc
      (<[bashrc := join nl (kept_lines false (split nl content))]> (fs w)).
Proof.
  intros Hf. unfold reinstall_shell_integration. mrun. cbn [fs out].
  rewrite bool_decide_true by (by rewrite Hf). mrun. cbn [fs out].
  rewrite Hf. cbn [default from_option id].
  destruct (scan_lines_run (split nl content) [] false
              (World (fs w) (out w ++ [py "🔄 Reinstalling shell integration..."])))
    as [printed ->]. mrun. cbn [fs out app].
  match goal with
  | |- context [install_shell_integration bashrc ?w'] =>
      pose proof (install_files w') as Hi;
      destruct (install_shell_integration bashrc w') as [w'' [e|[]]]
  end; cbn [fst fs out] in *; exact Hi.
Qed.

Lemma marker_line_contains l : is_marker_line l = true → contains marker l = true.
Proof.
  unfold is_marker_line, str_eqb. intros Hl%bool_decide_eq_true.
  destruct (strip_infix l) as (x & y & Heq). rewrite Hl in Heq.
  rewrite Heq. apply contains_infix.
Qed.

Lemma count_blocks_outside lines rest :
  Forall (λ l, is_marker_line l = false) lines →
  count_blocks false (lines ++ rest) = count_blocks false rest.
Proof.
  induction 1 as [|l lines Hl _ IH]; [done|].
  cbn [app count_blocks]. by rewrite Hl.
Qed.

(** X13: where the profile holds one block and the text around it does not hold
    the marker, [reinstall] writes the lines around the block, unchanged and
    in their order, and a fresh block behind them: one block in all. *)
Theorem reinstall_fresh_block (w : world) (content : pystr)
    (before body after : list pystr) (m c : pystr) :
  fs w !! bashrc = Some content →
  split nl content = before ++ m :: body ++ c :: after →
  is_marker_line m = true →
  is_close_line c = true →
  Forall (λ l, is_close_line l = false) body →
  contains marker (join nl (before ++ after)) = false →
  let content' := join nl (before ++ after) ++ nl ++ script_content in
  fs (reinstall w).1 !! bashrc = Some content'
  ∧ blocks content' = 1
  ∧ (before ++ after ≠ [] →
     split nl content' = before ++ after ++ split nl script_content).
Proof.
  intros Hf Hlines Hm Hc Hbody Hout content'.
  assert (Forall (λ l, is_marker_line l = false) (before ++ after)) as Hno.
  { apply Forall_forall. intros l Hl.
    destruct (is_marker_line l) eqn:E; [|done].
    apply marker_line_contains in E.
    by rewrite (contains_join_false _ _ _ _ Hout Hl) in E. }
  assert (Forall (λ l, 10%N ∉ l) (before ++ after)) as Hfresh.
  { pose proof (split_char_fresh 10%N content) as H.
    change (split [10%N] content) with (split nl content) in H.
    rewrite Hlines in H. apply Forall_app in H as [H1 H2].
    apply Forall_cons in H2 as [_ H2]. apply Forall_app in H2 as [_ H2].
    apply Forall_cons in H2 as [_ H2]. by apply Forall_app. }
  assert (split nl content' = split nl (join nl (before ++ after))
                              ++ split nl script_content) as Hsplit.
  { unfold content'. apply (split_char_app 10%N). }
  assert (before ++ after ≠ [] →
          split nl (join nl (before ++ after)) = before ++ after) as Hjoin.
  { intros Hne. by apply (split_join_char 10%N). }
  split; [|split].
  - rewrite (reinstall_files _ _ Hf), Hlines.
    rewrite (kept_lines_block _ _ _ _ _ Hm Hc Hbody Hno).
    rewrite (installed_fresh _ _ (lookup_insert_eq _ _ _) Hout).
    rewrite insert_insert_eq. apply lookup_insert_eq.
  - unfold blocks. rewrite Hsplit.
    destruct (decide (before ++ after = [])) as [->|Hne].
    + change (split nl (join nl [])) with [@nil N].
      rewrite (count_blocks_outside [[]]); [exact script_is_one_block|].
      by constructor.
    + rewrite (Hjoin Hne), (count_blocks_outside _ _ Hno).
      exact script_is_one_block.
  - intros Hne. rewrite Hsplit, (Hjoin Hne). by rewrite <- app_assoc.
Qed.

End InstallerProperties.

(** C5 as stated fails on a profile that already holds two marker lines:
    [install] leaves it alone, both times, and the two lines are still
    there. *)
Lemma install_twice_two_markers :
  let content := marker ++ nl ++ marker ++ nl in
  let w := World {[ sample_bashrc := content ]} [] in
  let w2 := (install_shell_integration sample_bashrc
               (install_shell_integration sample_bashrc w).1).1 in
  fs w2 !! sample_bashrc = Some content
  ∧ length (filter (λ l, is_marker_line l = true) (split nl content)) = 2.
Proof. repeat split. Qed.

Lemma Forall_false_forallb {A} (f : A → bool) (l : list A) :
  forallb (λ x, negb (f x)) l = true → Forall (λ x, f x = false) l.
Proof.
  induction l as [|x l IH]; [by constructor|]. cbn [forallb].
  intros [Hx Hl]%andb_true_iff. constructor; [|by apply IH].
  by destruct (f x).
Qed.

Lemma reinstall_fresh_block_witness :
  let content := py "export EDITOR=vi" ++ nl ++ nl ++ script_content in
  let w := World {[ sample_bashrc := content ]} [] in
  fs (reinstall_shell_integration sample_bashrc w).1 !! sample_bashrc
  = Some (join nl [py "export EDITOR=vi"; py ""; py ""; py ""]
          ++ nl ++ script_content).
Proof.
  intros content w.
  refine (proj1 (reinstall_fresh_block sample_bashrc w content
                   [py "export EDITOR=vi"; py ""; py ""]
                   (take 115 (drop 2 (split nl script_content)))
                   [py ""] marker (py "}")
                   (lookup_singleton_eq _ _) _ _ _ _ _)).
  - vm_compute. reflexivity.
  - vm_compute. reflexivity.
  - vm_compute. reflexivity.
  - apply Forall_false_forallb. vm_compute. reflexivity.
  - vm_compute. reflexivity.
Defined.

(** C2 at a profile whose comment mentions the marker above the one block:
    the loop removes the block, [install] finds the marker in the comment
    and adds nothing, and the profile is left without a block while
    [reinstall] reports success. *)
Theorem reinstall_loses_block :
  let w := World {[ sample_bashrc := commented_profile ]} [] in
  let w' := (reinstall_shell_integration sample_bashrc w).1 in
  let kept :=
    py "# the # Vity shell integration block below is managed by vity"
    ++ nl ++ nl ++ nl in
  blocks commented_profile = 1
  ∧ length (filter (λ l, is_marker_line l = true)
              (split nl commented_profile)) = 1
  ∧ fs w' !! sample_bashrc = Some kept
  ∧ blocks kept = 0
  ∧ out w'
    = [py "🔄 Reinstalling shell integration...";
       py "🗑️  Removing existing shell integration...";
       py "✨ Installing fresh shell integration...";
       py "✅ Shell integration already installed";
       py "✅ Shell integration reinstalled successfully!";
       py "Run 'source ~/.bashrc' or start a new terminal session"].
Proof. vm_compute. repeat split. Qed.

(** * Further properties *)

(** ** Extraction and rendering *)

(** X1: the text of a message is extracted in two cases only: the message has
    no [content] entry, or its [content] is a list that starts with an
    object; every other shape raises. *)
Theorem content_text_ok (m : msg) (v : pyval) :
  content_text m = ok v ↔
  (dict_get (py "content") m = None ∧ v = VStr (py ""))
  ∨ (∃ part parts,
       dict_get (py "content") m = Some (VList (VDict part :: parts))
       ∧ v = default (VStr (py "")) (dict_get (py "text") part)).
Proof.
  unfold content_text. split.
  - destruct (dict_get (py "content") m) as [c|] eqn:E; cbn.
    + destruct c as [| | |s|l|d]; cbn; try done.
      * by destruct s.
      * destruct l as [|x l]; [done|]. unfold get_method.
        destruct x; try done. intros [= <-]. right. by eexists _, _.
    + intros [= <-]. by left.
  - intros [[-> ->]|(part & parts & -> & ->)]; reflexivity.
Qed.

Lemma starts_with_app_long p x r :
  length p ≤ length x → starts_with p (x ++ r) = starts_with p x.
Proof.
  revert x. induction p as [|a p IH]; intros [|b x] H; simpl in *;
    try done; try lia.
  rewrite IH; [done|lia].
Qed.

Lemma starts_with_app_l p x r :
  starts_with p x = true → starts_with p (x ++ r) = true.
Proof.
  intros H. pose proof (starts_with_length _ _ H).
  by rewrite starts_with_app_long.
Qed.

Lemma find_None_intro p s :
  (∀ j, starts_with p (drop j s) = false) → find p s = None.
Proof.
  induction s as [|c s IH]; intros H.
  - specialize (H 0). by destruct p.
  - rewrite find_cons. pose proof (H 0) as H0. simpl in H0. rewrite H0.
    rewrite IH; [done|]. intros j. apply (H (S j)).
Qed.

(** Where the pattern first occurs depends on nothing behind it. *)
Lemma find_first_prefix p l r r' :
  find p (l ++ p ++ r) = Some (length l) →
  find p (l ++ p ++ r') = Some (length l).
Proof.
  intros H. destruct (find_Some _ _ _ H) as (_ & _ & Hfirst).
  apply find_app_first. intros j Hj. specialize (Hfirst j Hj).
  rewrite app_assoc, drop_app_le in Hfirst by (rewrite length_app; lia).
  rewrite app_assoc, drop_app_le by (rewrite length_app; lia).
  rewrite starts_with_app_long in Hfirst
    by (rewrite length_drop, length_app; lia).
  rewrite starts_with_app_long by (rewrite length_drop, length_app; lia).
  done.
Qed.

Lemma find_first_absent p l r :
  p ≠ [] → find p (l ++ p ++ r) = Some (length l) → find p l = None.
Proof.
  intros Hp H. destruct (find_Some _ _ _ H) as (_ & _ & Hfirst).
  apply find_None_intro. intros j.
  destruct (decide (j < length l)) as [Hj|Hj].
  - specialize (Hfirst j Hj). rewrite drop_app_le in Hfirst by lia.
    destruct (starts_with p (drop j l)) eqn:E; [|done].
    by rewrite (starts_with_app_l _ _ _ E) in Hfirst.
  - rewrite drop_ge by lia. by apply starts_with_nil.
Qed.

(** X2: the command part never holds the delimiter, and the canonical string
    splits at the same place as the text it was made from: its first piece
    is the command part again. *)
Theorem cmd_string_stable (text : pystr) :
  contains delimiter text = true →
  ∃ s cmd_part,
    cmd_string (VStr text) = ok s
    ∧ list_index (split delimiter text) 0 = ok cmd_part
    ∧ contains delimiter cmd_part = false
    ∧ contains delimiter s = true
    ∧ list_index (split delimiter s) 0 = ok cmd_part.
Proof.
  intros [i Hi]%contains_find.
  destruct (find_Some _ _ _ Hi) as (Heq & Hlen & _).
  pose proof (cmd_string_pieces _ _ Hi) as Hs. cbv zeta in Hs.
  destruct (split_delimiter_pieces _ _ Hi) as [H0 _].
  set (l := take i text) in *.
  assert (length l = i) as Hl by (unfold l; rewrite length_take; lia).
  rewrite Heq, <- Hl in Hi.
  match type of Hs with _ = ok (_ ++ _ ++ ?c) => set (comment := c) in * end.
  assert (find delimiter (l ++ delimiter ++ comment) = Some (length l)) as Hi'
    by exact (find_first_prefix _ _ _ _ Hi).
  exists (l ++ delimiter ++ comment), l.
  split; [exact Hs|]. split; [exact H0|]. repeat split.
  - apply contains_false_find.
    exact (find_first_absent _ _ _ delimiter_nonempty Hi).
  - apply contains_find. by exists (length l).
  - destruct (split_delimiter_pieces _ _ Hi') as [H0' _].
    by rewrite H0', take_app_length.
Qed.

(** ** The [do] and [chat] branch as a whole *)

Section BranchProperties.

Variable bash_history : pystr.
Variable resolve : pystr → pystr.
Variable read_error : pystr → option exn.
Variable open_error : pystr → option exn.
Variable json_loads : pystr → result pyval.
Variable json_dumps : list msg → pystr.
Variable generate_command : pystr → pyval → pystr → result (list msg).
Variable generate_chat_response : pystr → pyval → pystr → result (list msg).
Variable str_value : pyval → pystr.
Variable exn_str : exn → pystr.

Local Abbreviation client := (client_of generate_command generate_chat_response).
Local Abbreviation saved := (saved_files resolve json_dumps).
Local Abbreviation recorded := (recorded_files bash_history).
Local Abbreviation error_report := (error_line exn_str).
Local Abbreviation save := (save_chat_history resolve open_error json_dumps).
Local Abbreviation savable := (can_save open_error).
Local Abbreviation run :=
  (try_generate bash_history resolve open_error json_dumps generate_command
     generate_chat_response str_value exn_str).
Local Abbreviation vity_branch :=
  (main bash_history resolve read_error open_error json_loads json_dumps
     generate_command generate_chat_response str_value exn_str).

(** [show_command] raises before it prints or writes, or not at all. *)
Lemma show_command_cases m w :
  (∃ e, show_command bash_history str_value m w = (w, inl e))
  ∨ (∃ line, show_command bash_history str_value m w
             = (World (fs w) (out w ++ [line]), ok tt))
  ∨ (∃ s, show_command bash_history str_value m w
          = (World (recorded (history_line s) (fs w))
               (out w ++ [py "Command: " ++ s]), ok tt)).
Proof.
  unfold show_command. mrun.
  destruct (content_text m) as [e|v]; [left; by exists e|]. mrun.
  destruct (in_test delimiter v) as [e|[|]]; [left; by exists e| |]; mrun.
  - destruct (cmd_string v) as [e|s]; [left; by exists e|]. mrun.
    cbn [fs out]. right. right. exists s. unfold recorded_files.
    destruct (fs w !! bash_history) as [old|] eqn:E.
    + rewrite bool_decide_true by done. mrun. cbn [fs out]. by rewrite E.
    + rewrite bool_decide_false by (by intros [? ?]). reflexivity.
  - right. left. by eexists.
Qed.

(** The save under the handler: the history is written and the status is 0,
    or the file does not open, the error is reported and the status is 1. *)
Lemma handled_save a h w :
  savable a
  ∧ handled exn_str (save a h w) = (World (saved a h (fs w)) (out w), 0%Z)
  ∨ ∃ e, ¬ savable a
    ∧ handled exn_str (save a h w)
      = (World (fs w) (out w ++ [error_report e]), 1%Z).
Proof.
  destruct (save_cases open_error a) as [Hs|(p & e & Hp & He)].
  - left. split; [done|]. by rewrite save_chat_history_run.
  - right. exists e. split.
    + intros Hs. specialize (Hs p Hp). congruence.
    + by rewrite (save_chat_history_fails _ _ _ _ _ _ _ _ Hp He).
Qed.

(** The [try] block either reports an error of the client or of the
    extraction, having printed nothing else and changed no file, or reaches
    the save after the client answered, with the files it found or with
    one more line in the shell history. *)
Lemma run_cases a th ch ui w :
  (∃ e, run a th ch ui w = (World (fs w) (out w ++ [error_report e]), 1%Z))
  ∨ (∃ h files printed,
       client a th ch ui = ok h
       ∧ (files = fs w
          ∨ cmd a = Do ∧ ∃ s, files = recorded (history_line s) (fs w))
       ∧ run a th ch ui w
         = handled exn_str (save a h (World files (out w ++ printed)))).
Proof.
  rewrite run_handled. unfold client_of. destruct (cmd a) eqn:Ha.
  - unfold do_branch. mrun.
    destruct (generate_command th ch ui) as [e|h]; [left; by exists e|]. mrun.
    assert (handled exn_str (save a h w)
            = handled exn_str (save a h (World (fs w) (out w ++ []))))
      as Hskip by (rewrite app_nil_r; by destruct w).
    destruct (last_assistant_msg h) as [m|]; cycle 1.
    { mrun. right. exists h, (fs w), []. split; [done|]. split; [by left|].
      rewrite <- Hskip. by destruct (save a h w) as [? [?|?]]. }
    destruct (dict_truthy m); cycle 1.
    { mrun. right. exists h, (fs w), []. split; [done|]. split; [by left|].
      rewrite <- Hskip. by destruct (save a h w) as [? [?|?]]. }
    destruct (show_command_cases m w) as [[e ->]|[[line ->]|[s ->]]].
    + left. by exists e.
    + right. exists h, (fs w), [line]. split; [done|]. split; [by left|].
      by destruct (save a h _) as [? [?|?]].
    + right. exists h, (recorded (history_line s) (fs w)), [py "Command: " ++ s].
      split; [done|]. split; [right; split; [done|by exists s]|].
      by destruct (save a h _) as [? [?|?]].
  - unfold chat_branch. mrun.
    destruct (generate_chat_response th ch ui) as [e|h]; [left; by exists e|].
    mrun.
    assert (handled exn_str (save a h w)
            = handled exn_str (save a h (World (fs w) (out w ++ []))))
      as Hskip by (rewrite app_nil_r; by destruct w).
    destruct (last_assistant_msg h) as [m|]; cycle 1.
    { mrun. right. exists h, (fs w), []. split; [done|]. split; [by left|].
      rewrite <- Hskip. by destruct (save a h w) as [? [?|?]]. }
    destruct (dict_truthy m); cycle 1.
    { mrun. right. exists h, (fs w), []. split; [done|]. split; [by left|].
      rewrite <- Hskip. by destruct (save a h w) as [? [?|?]]. }
    destruct (content_text m) as [e|v]; [left; by exists e|]. mrun.
    right. exists h, (fs w), [format str_value v].
    split; [done|]. split; [by left|].
    by destruct (save a h _) as [? [?|?]].
Qed.

Lemma recorded_other line files p :
  p ≠ bash_history → recorded line files !! p = files !! p.
Proof.
  intros Hp. unfold recorded_files. destruct (files !! bash_history); [|done].
  by apply lookup_insert_ne.
Qed.


(** X4: with status 0 the client has answered, and the file at the chat path
    holds the updated history as the JSON writer prints it, whatever it held
    before. *)
Theorem success_saves_history (a : args) (w w1 w2 : world)
    (th : pystr) (ch : pyval) :
  load_terminal_history resolve read_error a w = (w1, ok th) →
  load_chat_history resolve read_error json_loads a w1 = (w2, ok ch) →
  (vity_branch a w).2 = 0%Z →
  ∃ h, client a th ch (join (py " ") (prompt a)) = ok h
    ∧ ∀ p, path_given (chat_file a) = Some p →
           fs (vity_branch a w).1 !! resolve p = Some (json_dumps h).
Proof.
  intros H1 H2.
  rewrite (main_run bash_history resolve read_error open_error json_loads
             json_dumps generate_command generate_chat_response str_value
             exn_str a w w1 w2 th ch H1 H2).
  destruct (run_cases a th ch (join (py " ") (prompt a))
              (World (fs w) (out w2 ++ [thinking])))
    as [[e ->]|(h & files & printed & Hh & _ & ->)]; cbn [fst snd fs out];
    [done|].
  destruct (handled_save a h (World files ((out w2 ++ [thinking]) ++ printed)))
    as [[Hs ->]|(e & Hs & ->)]; cbn [fst snd fs out]; [|done].
  intros _. exists h. split; [done|]. intros p Hp.
  unfold saved_files. rewrite Hp. apply lookup_insert_eq.
Qed.

(** X5: a [do] invocation changes no file other than the one the chat path
    names and the shell history; when the chat path does not name the shell
    history, it never creates the shell history, and what it does to an
    existing one is to add at its end. *)
Theorem do_touches_two_files (a : args) (w : world) :
  cmd a = Do →
  (∀ q, q ≠ bash_history →
        (∀ p, path_given (chat_file a) = Some p → resolve p ≠ q) →
        fs (vity_branch a w).1 !! q = fs w !! q)
  ∧ ((∀ p, path_given (chat_file a) = Some p → resolve p ≠ bash_history) →
     match fs w !! bash_history with
     | None => fs (vity_branch a w).1 !! bash_history = None
     | Some old =>
         ∃ added, fs (vity_branch a w).1 !! bash_history = Some (old ++ added)
     end).
Proof.
  intros Ha.
  assert (∀ files,
            files = fs w
            ∨ cmd a = Do ∧ (∃ s, files = recorded (history_line s) (fs w)) →
            match fs w !! bash_history with
            | None => files !! bash_history = None
            | Some old => ∃ added, files !! bash_history = Some (old ++ added)
            end) as Hadd.
  { intros files [->|(_ & s & ->)].
    - destruct (fs w !! bash_history) as [old|]; [|done].
      exists []. by rewrite app_nil_r.
    - unfold recorded_files. destruct (fs w !! bash_history) as [old|] eqn:E.
      + exists (history_line s). apply lookup_insert_eq.
      + done. }
  destruct (main_cases bash_history resolve read_error open_error json_loads
              json_dumps generate_command generate_chat_response str_value
              exn_str a w)
    as [[printed ->]|(th & ch & w1 & w2 & _ & _ & ->)]; cbn [fst snd fs out].
  { split; [done|]. intros _. apply Hadd. by left. }
  destruct (run_cases a th ch (join (py " ") (prompt a))
              (World (fs w) (out w2 ++ [thinking])))
    as [[e ->]|(h & files & printed & _ & Hfiles & ->)]; cbn [fst snd fs out].
  { split; [done|]. intros _. apply Hadd. by left. }
  cbn [fs out] in Hfiles.
  assert (∀ q, q ≠ bash_history → files !! q = fs w !! q) as Hframe.
  { intros q Hq. destruct Hfiles as [->|(_ & s & ->)]; [done|].
    by apply recorded_other. }
  destruct (handled_save a h (World files ((out w2 ++ [thinking]) ++ printed)))
    as [[Hs ->]|(e & Hs & ->)]; cbn [fst snd fs out].
  - split.
    + intros q Hq Hchat. rewrite (saved_other resolve json_dumps _ _ _ _ Hchat).
      by apply Hframe.
    + intros Hchat. rewrite (saved_other resolve json_dumps _ _ _ _ Hchat).
      by apply Hadd.
  - split; [intros q Hq _; by apply Hframe|]. intros _. by apply Hadd.
Qed.

End BranchProperties.

(** ** Shell integration as a whole *)

Section LinesLemmas.
Implicit Types s : pystr.

(** Splitting a text at a character and joining the pieces with it gives
    the text back. *)
Lemma join_split_char c s : join [c] (split [c] s) = s.
Proof.
  induction s as [|y s IH]; [done|]. rewrite split_char_cons.
  pose proof (split_nonempty [c] s) as Hne.
  destruct (split [c] s) as [|piece pieces] eqn:E; [done|].
  destruct (N.eqb_spec c y) as [->|_].
  - change (join [y] ([] :: piece :: pieces))
      with (y :: join [y] (piece :: pieces)). by rewrite IH.
  - destruct pieces as [|piece' pieces]; simpl in *; by rewrite IH.
Qed.

Lemma join_app sep (l1 l2 : list pystr) :
  l1 ≠ [] → l2 ≠ [] →
  join sep (l1 ++ l2) = join sep l1 ++ sep ++ join sep l2.
Proof.
  intros H1 H2. induction l1 as [|x l1 IH]; [done|].
  destruct l1 as [|y l1].
  - destruct l2 as [|z l2]; [done|]. reflexivity.
  - change (join sep ((x :: y :: l1) ++ l2))
      with (x ++ sep ++ join sep ((y :: l1) ++ l2)).
    rewrite IH by done.
    change (join sep (x :: y :: l1)) with (x ++ sep ++ join sep (y :: l1)).
    by rewrite <- !app_assoc.
Qed.

Lemma filter_length_0 (f : pystr → bool) (l : list pystr) :
  length (filter (λ x, f x = true) l) = 0 ↔ Forall (λ x, f x = false) l.
Proof.
  induction l as [|x l IH].
  - split; [by constructor|done].
  - rewrite filter_cons. destruct (decide (f x = true)) as [Hx|Hx].
    + split; [done|]. intros [Hx' _]%Forall_cons. congruence.
    + rewrite IH. apply not_true_is_false in Hx.
      split; [by constructor|]. by intros [_ ?]%Forall_cons.
Qed.

(** A text that does not hold the marker has no marker line. *)
Lemma no_marker_no_marker_line s :
  contains marker s = false →
  Forall (λ l, is_marker_line l = false) (split nl s).
Proof.
  intros Hs. apply Forall_forall. intros l Hl.
  destruct (is_marker_line l) eqn:E; [|done].
  apply marker_line_contains in E.
  rewrite <- (join_split_char 10%N s) in Hs.
  by rewrite (contains_join_false _ _ _ _ Hs Hl) in E.
Qed.

Lemma kept_lines_all lines :
  Forall (λ l, is_marker_line l = false) lines →
  kept_lines false lines = lines.
Proof.
  intros H. rewrite <- (app_nil_r lines) at 1.
  by rewrite (kept_lines_outside _ _ H), app_nil_r.
Qed.

(** Inside a block that no closing line ends, nothing is kept. *)
Lemma kept_lines_open lines :
  Forall (λ l, is_close_line l = false) lines → kept_lines true lines = [].
Proof.
  induction 1 as [|l lines Hl _ IH]; [done|].
  cbn [kept_lines]. unfold scan_line. unfold is_close_line in Hl. rewrite Hl.
  by destruct (str_eqb (strip l) marker).
Qed.

Lemma kept_lines_Forall (P : pystr → Prop) in_sec lines :
  Forall P lines → Forall P (kept_lines in_sec lines).
Proof.
  intros H. revert in_sec. induction H as [|l lines Hl _ IH]; intros in_sec.
  - constructor.
  - cbn [kept_lines]. unfold scan_line.
    destruct (str_eqb (strip l) marker); [apply IH|].
    destruct (in_sec && str_eqb (strip l) (py "}")); [apply IH|].
    destruct (negb in_sec); [|apply IH]. by constructor.
Qed.

(** No marker line is ever kept. *)
Lemma kept_lines_no_marker in_sec lines :
  Forall (λ l, is_marker_line l = false) (kept_lines in_sec lines).
Proof.
  revert in_sec. induction lines as [|l lines IH]; intros in_sec.
  - constructor.
  - cbn [kept_lines]. unfold scan_line.
    destruct (str_eqb (strip l) marker) eqn:E; [apply IH|].
    destruct (in_sec && str_eqb (strip l) (py "}")); [apply IH|].
    destruct (negb in_sec); [|apply IH]. by constructor.
Qed.

(** The text the loop writes back has no marker line. *)
Lemma rewritten_no_marker_line content :
  Forall (λ l, is_marker_line l = false)
    (split nl (join nl (kept_lines false (split nl content)))).
Proof.
  destruct (kept_lines false (split nl content)) as [|l kept] eqn:E.
  - by repeat constructor.
  - assert (Forall (λ l, 10%N ∉ l) (l :: kept)) as Hfresh.
    { rewrite <- E. apply kept_lines_Forall. apply (split_char_fresh 10%N). }
    rewrite (split_join_char 10%N (l :: kept) ltac:(done) Hfresh
             : split nl (join nl (l :: kept)) = l :: kept).
    rewrite <- E. apply kept_lines_no_marker.
Qed.

Lemma marker_lines_script :
  length (filter (λ l, is_marker_line l = true) (split nl script_content)) = 1.
Proof. vm_compute. reflexivity. Qed.

Lemma kept_lines_script : kept_lines false (split nl script_content) = [[]; []].
Proof. vm_compute. reflexivity. Qed.

Lemma marker_lines_appended s :
  marker_lines (s ++ nl ++ script_content) = marker_lines s + 1.
Proof.
  unfold marker_lines.
  rewrite (split_char_app 10%N s script_content
           : split nl (s ++ nl ++ script_content) = _).
  rewrite filter_app, length_app.
  change (split [10%N] script_content) with (split nl script_content).
  by rewrite marker_lines_script.
Qed.

Lemma blocks_appended s :
  marker_lines s = 0 → blocks (s ++ nl ++ script_content) = 1.
Proof.
  intros H%filter_length_0. unfold blocks.
  rewrite (split_char_app 10%N s script_content
           : split nl (s ++ nl ++ script_content) = _).
  rewrite (count_blocks_outside _ _ H).
  change (split [10%N] script_content) with (split nl script_content).
  by rewrite script_is_one_block.
Qed.

Lemma blocks_no_marker_line s : marker_lines s = 0 → blocks s = 0.
Proof.
  intros H%filter_length_0. unfold blocks.
  rewrite <- (app_nil_r (split nl s)). by rewrite (count_blocks_outside _ _ H).
Qed.

End LinesLemmas.

Section InstallerMore.

Variable bashrc : pystr.

Local Abbreviation install := (install_shell_integration bashrc).
Local Abbreviation reinstall := (reinstall_shell_integration bashrc).

Local Opaque script_content.

Lemma installed_other files q :
  q ≠ bashrc → installed bashrc files !! q = files !! q.
Proof.
  intros Hq. unfold installed. destruct (files !! bashrc) as [content|]; [|done].
  destruct (contains marker content); [done|]. by apply lookup_insert_ne.
Qed.

(** X7: [install] changes no file but the profile, never creates the profile,
    and leaves the text of an existing profile in place: what it adds, it
    adds at the end. *)
Theorem install_appends_only (w : world) :
  (∀ q, q ≠ bashrc → fs (install w).1 !! q = fs w !! q)
  ∧ match fs w !! bashrc with
    | None =>
        install w = (World (fs w) (out w ++ [py "❌ ~/.bashrc not found"]), ok tt)
    | Some content =>
        ∃ added, fs (install w).1 !! bashrc = Some (content ++ added)
    end.
Proof.
  split.
  - intros q Hq. rewrite install_files. by apply installed_other.
  - destruct (fs w !! bashrc) as [content|] eqn:E.
    + rewrite install_files. destruct (contains marker content) eqn:Hc.
      * exists []. by rewrite (installed_marked _ _ _ E Hc), app_nil_r.
      * exists (nl ++ script_content).
        rewrite (installed_fresh _ _ _ E Hc). apply lookup_insert_eq.
    + unfold install_shell_integration. mrun. cbn [fs out].
      by rewrite E, bool_decide_false by (by intros [? ?]).
Qed.

(** X8: [reinstall] changes no file but the profile, and without a profile it
    only reports that there is none. *)
Theorem reinstall_touches_profile_only (w : world) :
  (∀ q, q ≠ bashrc → fs (reinstall w).1 !! q = fs w !! q)
  ∧ (fs w !! bashrc = None →
     reinstall w = (World (fs w) (out w ++ [py "❌ ~/.bashrc not found"]), ok tt)).
Proof.
  assert (fs w !! bashrc = None →
          reinstall w
          = (World (fs w) (out w ++ [py "❌ ~/.bashrc not found"]), ok tt))
    as Hmissing.
  { intros E. unfold reinstall_shell_integration. mrun. cbn [fs out].
    by rewrite E, bool_decide_false by (by intros [? ?]). }
  split; [|done]. intros q Hq.
  destruct (fs w !! bashrc) as [content|] eqn:E.
  - rewrite (reinstall_files _ _ _ E), installed_other by done.
    by apply lookup_insert_ne.
  - by rewrite Hmissing.
Qed.

(** X9: on a profile without a marker line [reinstall] writes the text back as
    it was and leaves the files as [install] alone leaves them. *)
Theorem reinstall_without_marker_line (w : world) (content : pystr) :
  fs w !! bashrc = Some content →
  marker_lines content = 0 →
  fs (reinstall w).1 = fs (install w).1.
Proof.
  intros Hf Hno%filter_length_0.
  rewrite (reinstall_files _ _ _ Hf), install_files, (kept_lines_all _ Hno).
  rewrite (join_split_char 10%N content : join nl (split nl content) = content).
  by rewrite (insert_id _ _ _ Hf).
Qed.

(** X10: a marker line that no closing line follows takes every line behind it
    along: the profile is cut off at the marker line, and the fresh block
    follows the lines before it. *)
Theorem reinstall_unterminated_block (w : world) (content : pystr)
    (before rest : list pystr) (m : pystr) :
  fs w !! bashrc = Some content →
  split nl content = before ++ m :: rest →
  is_marker_line m = true →
  Forall (λ l, is_close_line l = false) rest →
  contains marker (join nl before) = false →
  fs (reinstall w).1 !! bashrc
  = Some (join nl before ++ nl ++ script_content).
Proof.
  intros Hf Hlines Hm Hrest Hout.
  assert (Forall (λ l, is_marker_line l = false) before) as Hno.
  { apply Forall_forall. intros l Hl.
    destruct (is_marker_line l) eqn:E; [|done].
    apply marker_line_contains in E.
    by rewrite (contains_join_false _ _ _ _ Hout Hl) in E. }
  rewrite (reinstall_files _ _ _ Hf), Hlines, (kept_lines_outside _ _ Hno).
  cbn [kept_lines]. unfold scan_line. unfold is_marker_line in Hm. rewrite Hm.
  cbn [app]. rewrite (kept_lines_open _ Hrest), app_nil_r.
  rewrite (installed_fresh _ _ _ (lookup_insert_eq _ _ _) Hout).
  rewrite insert_insert_eq. apply lookup_insert_eq.
Qed.

(** X11: [install] and then [reinstall] on a profile that did not hold the
    marker: the old text is still there, followed by two more line feeds
    than [install] alone puts before the block, and by the one block. *)
Theorem reinstall_after_install (w : world) (base : pystr) :
  fs w !! bashrc = Some base →
  contains marker base = false →
  fs (install w).1 !! bashrc = Some (base ++ nl ++ script_content)
  ∧ fs (reinstall (install w).1).1 !! bashrc
    = Some ((base ++ nl ++ nl) ++ nl ++ script_content)
  ∧ blocks ((base ++ nl ++ nl) ++ nl ++ script_content) = 1.
Proof.
  intros Hf Hbase.
  assert (fs (install w).1 !! bashrc = Some (base ++ nl ++ script_content))
    as Hinst.
  { rewrite install_files, (installed_fresh _ _ _ Hf Hbase).
    apply lookup_insert_eq. }
  assert (contains marker (base ++ nl ++ nl) = false) as Hbase'.
  { apply contains_false_occurrences.
    change (base ++ nl ++ nl) with (base ++ 10%N :: nl).
    rewrite (occurrences_app_fresh _ _ _ _ marker_nonempty marker_one_line).
    apply contains_false_occurrences in Hbase. by rewrite Hbase. }
  split; [done|]. split.
  - rewrite (reinstall_files _ _ _ Hinst).
    rewrite (split_char_app 10%N base script_content
             : split nl (base ++ nl ++ script_content) = _).
    change (split [10%N] script_content) with (split nl script_content).
    rewrite (kept_lines_outside _ _ (no_marker_no_marker_line _ Hbase)).
    rewrite kept_lines_script.
    rewrite join_app by (done || apply split_nonempty).
    rewrite (join_split_char 10%N base : join nl (split nl base) = base).
    change (join nl [[]; []]) with nl.
    rewrite (installed_fresh _ _ _ (lookup_insert_eq _ _ _) Hbase').
    rewrite insert_insert_eq. apply lookup_insert_eq.
  - apply blocks_appended. apply filter_length_0.
    by apply no_marker_no_marker_line.
Qed.

(** X12: whatever an existing profile held, several blocks or none, after
    [reinstall] it holds the marker text, with one marker line and one
    block; or with no marker line and no block, when the text kept around
    the blocks mentions the marker inside a longer line. *)
Theorem reinstall_one_marker_line (w : world) (content : pystr) :
  fs w !! bashrc = Some content →
  ∃ content',
    fs (reinstall w).1 !! bashrc = Some content'
    ∧ contains marker content' = true
    ∧ (marker_lines content' = 1 ∧ blocks content' = 1
       ∨ marker_lines content' = 0 ∧ blocks content' = 0).
Proof.
  intros Hf. rewrite (reinstall_files _ _ _ Hf).
  set (kept := join nl (kept_lines false (split nl content))).
  assert (marker_lines kept = 0) as Hkept.
  { apply filter_length_0. apply rewritten_no_marker_line. }
  destruct (contains marker kept) eqn:Hc.
  - exists kept. rewrite (installed_marked _ _ _ (lookup_insert_eq _ _ _) Hc).
    split; [apply lookup_insert_eq|]. split; [done|]. right.
    split; [done|]. by apply blocks_no_marker_line.
  - exists (kept ++ nl ++ script_content).
    rewrite (installed_fresh _ _ _ (lookup_insert_eq _ _ _) Hc).
    rewrite insert_insert_eq. split; [apply lookup_insert_eq|]. split.
    + apply contains_occurrences. rewrite occurrences_installed. lia.
    + left. split; [|by apply blocks_appended].
      by rewrite marker_lines_appended, Hkept.
Qed.

(** A profile with a marker line holds the marker text. *)
Lemma marker_line_marker content :
  0 < marker_lines content → contains marker content = true.
Proof.
  intros H. destruct (contains marker content) eqn:Hc; [done|].
  apply no_marker_no_marker_line, filter_length_0 in Hc.
  unfold marker_lines in H. lia.
Qed.

(** C5, as the code has it: on a profile that holds a marker line [install]
    changes no file, and a second [install] changes nothing after the
    first.  So after two calls a profile that held one marker line still
    holds that one, and a profile that held none, and did not mention the
    marker text either, holds the one of the block that was added. *)
Theorem install_twice_one_marker_line (w : world) (content : pystr) :
  fs w !! bashrc = Some content →
  let w1 := (install w).1 in
  let w2 := (install w1).1 in
  (0 < marker_lines content → fs w1 = fs w)
  ∧ fs w2 = fs w1
  ∧ (marker_lines content ≤ 1 →
     (marker_lines content = 0 → contains marker content = false) →
     ∃ content',
       fs w2 !! bashrc = Some content' ∧ marker_lines content' = 1).
Proof.
  intros Hf w1 w2. subst w1 w2.
  destruct (install_idempotent bashrc w content Hf) as [Hmarked Htwice].
  split; [|split; [exact Htwice|]].
  - intros H. by apply Hmarked, marker_line_marker.
  - intros Hone Hplain. rewrite Htwice, install_files.
    destruct (contains marker content) eqn:Hc.
    + rewrite (installed_marked _ _ _ Hf Hc). exists content.
      split; [done|]. destruct (marker_lines content) as [|[|n]] eqn:E;
        [by specialize (Hplain eq_refl)|done|lia].
    + rewrite (installed_fresh _ _ _ Hf Hc). eexists.
      split; [apply lookup_insert_eq|]. rewrite marker_lines_appended.
      apply no_marker_no_marker_line, filter_length_0 in Hc.
      unfold marker_lines. by rewrite Hc.
Qed.

Local Transparent script_content.

End InstallerMore.

(** ** Configuration and dispatch *)

Section CliProperties.

Variable config_file : pystr.
Variable bashrc : pystr.
Variable bash_history : pystr.
Variable resolve : pystr → pystr.
Variable read_error : pystr → option exn.
Variable open_error : pystr → option exn.
Variable json_loads : pystr → result pyval.
Variable json_dumps : list msg → pystr.
Variable generate_command : pystr → pyval → pystr → result (list msg).
Variable generate_chat_response : pystr → pyval → pystr → result (list msg).
Variable str_value : pyval → pystr.
Variable exn_str : exn → pystr.
Variable help_text : pystr.

Local Abbreviation setup := (setup_config config_file).
Local Abbreviation reset := (reset_config config_file).
Local Abbreviation show := (show_config config_file).
Local Abbreviation vity_branch :=
  (main bash_history resolve read_error open_error json_loads json_dumps
     generate_command generate_chat_response str_value exn_str).
Local Abbreviation cli :=
  (vity config_file bashrc bash_history resolve read_error open_error
     json_loads json_dumps generate_command generate_chat_response str_value
     exn_str help_text).
Local Abbreviation run :=
  (try_generate bash_history resolve open_error json_dumps generate_command
     generate_chat_response str_value exn_str).
Local Abbreviation saved := (saved_files resolve json_dumps).
Local Abbreviation savable := (can_save open_error).
Local Abbreviation error_report := (error_line exn_str).
Local Abbreviation reply := (format str_value).

(** What is printed before the key is read. *)
Local Abbreviation greeting :=
  [py "🤖 Welcome to Vity! Let's set up your OpenAI API key.";
   py "You can get one at: https://platform.openai.com/api-keys";
   py "";
   py "Enter your OpenAI API key: "].

Lemma say_Process s files printed input env :
  say s (Process (World files printed) input env)
  = Process (World files (printed ++ [s])) input env.
Proof. reflexivity. Qed.

Lemma setup_configured p :
  is_Some (fs (world_of p) !! config_file) → setup p = (p, Some true).
Proof. intros H. unfold setup_config. by rewrite bool_decide_true. Qed.

(** X14: with a configuration file in place nothing is asked: [do] and [chat]
    run the branch on the files as they are, the bare command prints the
    help, and neither reads standard input nor sets a variable. *)
Theorem configured_skips_setup (p : process) :
  is_Some (fs (world_of p) !! config_file) →
  (∀ a, cli (Generate a) p
        = (Process (vity_branch a (world_of p)).1 (stdin p) (environ p),
           (vity_branch a (world_of p)).2))
  ∧ cli NoCommand p = (say help_text p, 0%Z).
Proof.
  intros H. split.
  - intros a. unfold vity. rewrite (setup_configured _ H).
    by destruct (vity_branch a (world_of p)).
  - unfold vity. by rewrite (setup_configured _ H).
Qed.

(** X15: without a configuration file, a key that is blank after stripping, or
    the end of standard input, ends [do], [chat] and the bare command with
    status 1: no file is written, no variable is set, and the client is not
    called. *)
Theorem blank_key_exits_1 (i : invocation) (p : process) :
  fs (world_of p) !! config_file = None →
  i = NoCommand ∨ (∃ a, i = Generate a) →
  (stdin p = [] →
   cli i p
   = (Process (World (fs (world_of p)) (out (world_of p) ++ greeting))
        [] (environ p), 1%Z))
  ∧ (∀ line rest, stdin p = line :: rest → strip line = [] →
     cli i p
     = (Process
          (World (fs (world_of p))
             (out (world_of p) ++ greeting ++ [py "❌ API key is required"]))
          rest (environ p), 1%Z)).
Proof.
  destruct p as [[files printed] input env]. cbn [world_of stdin environ fs out].
  intros Hc Hi. split.
  - intros ->.
    assert (setup (Process (World files printed) [] env)
            = (Process (World files (printed ++ greeting)) [] env, None)) as Hs.
    { unfold setup_config. cbn [say world_of stdin environ fs out].
      rewrite bool_decide_false by (rewrite Hc; by intros [? ?]).
      rewrite ?say_Process. by rewrite <- !app_assoc. }
    destruct Hi as [->|[a ->]]; unfold vity; by rewrite Hs.
  - intros line rest -> Hblank.
    assert (setup (Process (World files printed) (line :: rest) env)
            = (Process
                 (World files
                    (printed ++ greeting ++ [py "❌ API key is required"]))
                 rest env, Some false)) as Hs.
    { unfold setup_config. cbn [say world_of stdin environ fs out].
      rewrite bool_decide_false by (rewrite Hc; by intros [? ?]).
      rewrite Hblank. cbn [say world_of stdin environ fs out].
      rewrite ?say_Process. by rewrite <- !app_assoc. }
    destruct Hi as [->|[a ->]]; unfold vity; by rewrite Hs.
Qed.

Lemma setup_config_saves (p : process) (line : pystr)
    (more : list pystr) :
  fs (world_of p) !! config_file = None →
  stdin p = line :: more →
  strip line ≠ [] →
  ∃ p',
    setup p = (p', Some true)
    ∧ fs (world_of p')
      = <[config_file := py "OPENAI_API_KEY=" ++ strip line ++ nl]>
          (fs (world_of p))
    ∧ stdin p' = more
    ∧ environ p' = <[py "OPENAI_API_KEY" := strip line]> (environ p).
Proof.
  destruct p as [[files printed] input env]. cbn [world_of stdin environ fs out].
  intros Hc -> Hkey.
  set (key := strip line) in *.
  set (p' :=
    Process
      (World (<[config_file := py "OPENAI_API_KEY=" ++ key ++ nl]> files)
         (printed ++ greeting
          ++ [py "✅ Configuration saved!"; py "Config file: " ++ config_file;
              py ""]))
      more (<[py "OPENAI_API_KEY" := key]> env)).
  assert (setup (Process (World files printed) (line :: more) env)
          = (p', Some true)) as Hs.
  { unfold setup_config. cbn [say world_of stdin environ fs out].
    rewrite bool_decide_false by (rewrite Hc; by intros [? ?]).
    fold key. destruct key as [|c key'] eqn:E; [done|].
    cbn [say world_of stdin environ fs out]. rewrite ?say_Process.
    cbn [say world_of stdin environ fs out]. rewrite ?say_Process.
    cbn [world_of stdin environ fs out]. unfold p'.
    by rewrite <- !app_assoc. }
  exists p'. split; [exact Hs|]. by repeat (split; [reflexivity|]).
Qed.

(** X16: the first run with a key: the configuration file holds the stripped
    key in one line, the variable is set, one line of input is used up, and
    the branch runs on the files with the configuration in them; asked
    again, [setup_config] finds the file and does nothing. *)
Theorem first_run_saves_key (p : process) (line : pystr)
    (more : list pystr) :
  fs (world_of p) !! config_file = None →
  stdin p = line :: more →
  strip line ≠ [] →
  ∃ p',
    setup p = (p', Some true)
    ∧ fs (world_of p')
      = <[config_file := py "OPENAI_API_KEY=" ++ strip line ++ nl]>
          (fs (world_of p))
    ∧ stdin p' = more
    ∧ environ p' = <[py "OPENAI_API_KEY" := strip line]> (environ p)
    ∧ setup p' = (p', Some true)
    ∧ ∀ a, cli (Generate a) p
           = (Process (vity_branch a (world_of p')).1 more (environ p'),
              (vity_branch a (world_of p')).2).
Proof.
  intros Hc Hin Hkey.
  destruct (setup_config_saves p line more Hc Hin Hkey)
    as (p' & Hs & Hfs & Hstdin & Henv).
  exists p'. repeat (split; [done|]). split.
  - apply setup_configured. rewrite Hfs, lookup_insert_eq. by eexists.
  - intros a. unfold vity. rewrite Hs, Hstdin. by destruct (vity_branch a _).
Qed.

Lemma reset_config_run w :
  reset w
  = (World (delete config_file (fs w))
       (out w ++ [if bool_decide (is_Some (fs w !! config_file))
                  then py "✅ Configuration reset"
                  else py "ℹ️  No configuration found"]), ok tt).
Proof.
  unfold reset_config. mrun. cbn [fs out].
  destruct (fs w !! config_file) as [text|] eqn:E.
  - rewrite bool_decide_true by (by eexists). reflexivity.
  - rewrite bool_decide_false by (by intros [? ?]). by rewrite (delete_id _ _ E).
Qed.

(** X17: [config --reset] removes the configuration file and nothing else; once
    it has run, [config] reports that there is no configuration and a
    second reset finds nothing to remove. *)
Theorem reset_config_forgets (w : world) :
  let w1 := (reset w).1 in
  fs w1 !! config_file = None
  ∧ (∀ q, q ≠ config_file → fs w1 !! q = fs w !! q)
  ∧ show w1
    = (World (fs w1)
         (out w1 ++ [py "❌ No configuration found";
                     py "Run 'vity config' to set up"]), ok tt)
  ∧ reset w1
    = (World (fs w1) (out w1 ++ [py "ℹ️  No configuration found"]), ok tt).
Proof.
  intros w1. subst w1. rewrite reset_config_run. cbn [fst fs out].
  assert (delete config_file (fs w) !! config_file = None) as Hgone
    by apply lookup_delete_eq.
  split; [done|]. split; [intros q Hq; by apply lookup_delete_ne|]. split.
  - unfold show_config. mrun. cbn [fs out].
    rewrite bool_decide_false by (rewrite Hgone; by intros [? ?]).
    cbn [fs out]. by rewrite <- !app_assoc.
  - rewrite reset_config_run. cbn [fs out]. rewrite Hgone.
    rewrite (bool_decide_false (is_Some None)) by (by intros [? ?]).
    by rewrite (delete_id _ _ Hgone).
Qed.

(** X18: a first run that saves a key, followed by [config --reset], leaves the
    files as they were before the first run. *)
Theorem setup_then_reset (p : process) (line : pystr) (more : list pystr) :
  fs (world_of p) !! config_file = None →
  stdin p = line :: more →
  strip line ≠ [] →
  (setup p).2 = Some true
  ∧ fs (reset (world_of (setup p).1)).1 = fs (world_of p).
Proof.
  intros Hc Hin Hkey.
  destruct (setup_config_saves p line more Hc Hin Hkey)
    as (p' & -> & Hfs & _). cbn [fst snd]. split; [done|].
  rewrite reset_config_run. cbn [fst fs]. rewrite Hfs.
  by apply delete_insert_id.
Qed.

Lemma install_returns w : ∃ w', install_shell_integration bashrc w = (w', ok tt).
Proof.
  unfold install_shell_integration. mrun.
  destruct (bool_decide _); [|by eexists].
  destruct (negb _); by eexists.
Qed.

Lemma reinstall_returns w :
  ∃ w', reinstall_shell_integration bashrc w = (w', ok tt).
Proof.
  unfold reinstall_shell_integration. mrun.
  destruct (bool_decide _); [|by eexists]. mrun.
  match goal with
  | |- context [scan_lines ?l ?n ?b ?w0] =>
      destruct (scan_lines_run l n b w0) as [printed ->]
  end. mrun.
  match goal with
  | |- context [install_shell_integration bashrc ?w0] =>
      destruct (install_returns w0) as [w' ->]
  end. by eexists.
Qed.

(** X19: [install], [reinstall] and [config] are always available: without a
    configuration file too they end with status 0, read nothing from
    standard input and set no variable; [config] without [--reset] changes
    no file. *)
Theorem always_available (i : invocation) (p : process) :
  i ≠ NoCommand → (∀ a, i ≠ Generate a) →
  (cli i p).2 = 0%Z
  ∧ stdin (cli i p).1 = stdin p
  ∧ environ (cli i p).1 = environ p
  ∧ (i = Config false → fs (world_of (cli i p).1) = fs (world_of p)).
Proof.
  intros Hnone Hgen. destruct i as [| |[|]| |a]; [| | | |done|by destruct (Hgen a)];
    unfold vity, run_command.
  - destruct (install_returns (world_of p)) as [w' ->]. by repeat split.
  - destruct (reinstall_returns (world_of p)) as [w' ->]. by repeat split.
  - rewrite reset_config_run. by repeat split.
  - unfold show_config. mrun.
    destruct (bool_decide _); by repeat split.
Qed.

(** *** A [chat] invocation and the shell history *)

(** The configuration writes to the configuration file only. *)
Lemma setup_config_no_key (p : process) :
  fs (world_of p) !! config_file = None →
  (stdin p = [] ∨ ∃ line rest, stdin p = line :: rest ∧ strip line = []) →
  fs (world_of (setup p).1) = fs (world_of p).
Proof.
  destruct p as [[files printed] input env]. cbn [world_of stdin environ fs out].
  intros Hc [->|(line & rest & -> & Hblank)].
  - assert (setup (Process (World files printed) [] env)
            = (Process (World files (printed ++ greeting)) [] env, None)) as Hs.
    { unfold setup_config. cbn [say world_of stdin environ fs out].
      rewrite bool_decide_false by (rewrite Hc; by intros [? ?]).
      rewrite ?say_Process. by rewrite <- !app_assoc. }
    by rewrite Hs.
  - assert (setup (Process (World files printed) (line :: rest) env)
            = (Process
                 (World files
                    (printed ++ greeting ++ [py "❌ API key is required"]))
                 rest env, Some false)) as Hs.
    { unfold setup_config. cbn [say world_of stdin environ fs out].
      rewrite bool_decide_false by (rewrite Hc; by intros [? ?]).
      rewrite Hblank. cbn [say world_of stdin environ fs out].
      rewrite ?say_Process. by rewrite <- !app_assoc. }
    by rewrite Hs.
Qed.

Lemma setup_config_frame (p : process) (q : pystr) :
  q ≠ config_file →
  fs (world_of (setup p).1) !! q = fs (world_of p) !! q.
Proof.
  intros Hq. destruct (fs (world_of p) !! config_file) as [text|] eqn:Hc.
  - rewrite setup_configured; [done|]. rewrite Hc. by eexists.
  - destruct (stdin p) as [|line rest] eqn:Hin.
    + rewrite (setup_config_no_key p Hc); [done|by left].
    + destruct (decide (strip line = [])) as [Hblank|Hkey].
      * rewrite (setup_config_no_key p Hc); [done|].
        right. by exists line, rest.
      * destruct (setup_config_saves p line rest Hc Hin Hkey)
          as (p' & Hs & Hfs & _).
        rewrite Hs. cbn [fst]. rewrite Hfs. by apply lookup_insert_ne.
Qed.

(** The branch of a [chat] invocation leaves the files alone or saves a
    history. *)
Lemma chat_main_files (a : args) (w : world) :
  cmd a = Chat →
  fs (vity_branch a w).1 = fs w
  ∨ ∃ h, fs (vity_branch a w).1 = saved a h (fs w).
Proof.
  intros Ha.
  destruct (main_cases bash_history resolve read_error open_error json_loads
              json_dumps generate_command generate_chat_response str_value
              exn_str a w)
    as [[printed ->]|(th & ch & w1 & w2 & _ & _ & ->)]; [by left|].
  exact (chat_run_files bash_history resolve open_error json_dumps
           generate_command generate_chat_response str_value exn_str a th ch
           (join (py " ") (prompt a)) (World (fs w) (out w2 ++ [thinking])) Ha).
Qed.

(** C10, as the code has it: a [chat] invocation, the first-run
    configuration included, leaves the shell history as it was unless the
    chat path names the shell history; when the client answers, the branch
    prints the text of the last assistant message and then rewrites the file
    the chat path names, or reports that it does not open. *)
Theorem chat_keeps_shell_history (a : args) (p : process) :
  cmd a = Chat →
  config_file ≠ bash_history →
  (∀ q, path_given (chat_file a) = Some q → resolve q ≠ bash_history) →
  fs (world_of (cli (Generate a) p).1) !! bash_history
  = fs (world_of p) !! bash_history
  ∧ ∀ th ch ui h m v w,
      generate_chat_response th ch ui = ok h →
      last_assistant_msg h = Some m →
      content_text m = ok v →
      (savable a →
       run a th ch ui w
       = (World (saved a h (fs w)) (out w ++ [reply v]), 0%Z))
      ∧ (∀ q e, path_given (chat_file a) = Some q → open_error q = Some e →
         run a th ch ui w
         = (World (fs w) (out w ++ [reply v; error_report e]), 1%Z)).
Proof.
  intros Ha Hconfig Hchat. split.
  - pose proof (setup_config_frame p bash_history (not_eq_sym Hconfig))
      as Hsetup.
    unfold vity. destruct (setup p) as [p' r]. cbn [fst] in Hsetup.
    destruct r as [[|]|]; [|done..].
    destruct (chat_main_files a (world_of p') Ha) as [Hfs|[h Hfs]];
      destruct (vity_branch a (world_of p')) as [w' status];
      cbn [fst world_of] in *; rewrite Hfs; [done|].
    by rewrite (saved_other resolve json_dumps _ _ _ _ Hchat).
  - intros th ch ui h m v w Hgen Hlast Hv.
    rewrite (run_chat_selected bash_history resolve open_error json_dumps
               generate_command generate_chat_response str_value exn_str
               a th ch ui h m v w Ha Hgen Hlast Hv).
    split.
    + intros Hs. by rewrite save_chat_history_run.
    + intros q e Hq He.
      rewrite (save_chat_history_fails resolve open_error json_dumps
                 a h q e _ Hq He).
      unfold throw. cbn [handled fs out]. by rewrite <- app_assoc.
Qed.

End CliProperties.

(** ** The further properties at sample inputs *)

Lemma cmd_string_stable_witness :
  ∃ s cmd_part,
    cmd_string (VStr (py "git status # show state")) = ok s
    ∧ list_index (split delimiter (py "git status # show state")) 0
      = ok cmd_part
    ∧ contains delimiter cmd_part = false
    ∧ contains delimiter s = true
    ∧ list_index (split delimiter s) 0 = ok cmd_part.
Proof. exact (cmd_string_stable (py "git status # show state") eq_refl). Defined.


Lemma success_saves_history_witness :
  let a := Args Do [py "list"] None (Some sample_chat) in
  let h := [user_says (py "list"); assistant_says (py "ls # list files")] in
  let w := World {[ sample_chat := py "{not json" ]} [] in
  ∃ h', answers h (py "") (VList []) (py "list") = ok h'
    ∧ ∀ p, path_given (chat_file a) = Some p →
           fs (sample_main (answers h) a w).1 !! sample_resolve p
           = Some (sample_dumps h').
Proof.
  intros a h w.
  exact (success_saves_history sample_bash_history sample_resolve
           sample_read_error sample_open_error sample_loads sample_dumps
           (answers h) (answers h) sample_str_value sample_exn_str
           a w w (World (fs w) [chat_warning sample_chat]) (py "") (VList [])
           eq_refl eq_refl eq_refl).
Defined.

Lemma do_touches_two_files_witness :
  let a := Args Do [py "list"] None (Some sample_chat) in
  let h := [user_says (py "list"); assistant_says (py "ls # list files")] in
  let w := World {[ sample_bash_history := py "cd /tmp" ++ nl ]} [] in
  ∃ added,
    fs (sample_main (answers h) a w).1 !! sample_bash_history
    = Some ((py "cd /tmp" ++ nl) ++ added).
Proof.
  intros a h w.
  refine (proj2 (do_touches_two_files sample_bash_history sample_resolve
                   sample_read_error sample_open_error sample_loads
                   sample_dumps (answers h) (answers h) sample_str_value
                   sample_exn_str a w eq_refl) _).
  intros p [= <-]. discriminate.
Defined.

Lemma chat_keeps_shell_history_witness :
  let a := Args Chat [py "hi"] None (Some sample_chat) in
  let h := [user_says (py "hi"); assistant_says (py "hello")] in
  let p := Process (World {[ sample_bash_history := py "cd /tmp" ++ nl ]} [])
             [py "sk-abc"] ∅ in
  fs (world_of (sample_vity (answers h) (Generate a) p).1) !! sample_bash_history
  = Some (py "cd /tmp" ++ nl).
Proof.
  intros a h p.
  refine (proj1 (chat_keeps_shell_history sample_config sample_bashrc
                   sample_bash_history sample_resolve sample_read_error
                   sample_open_error sample_loads sample_dumps (answers h)
                   (answers h) sample_str_value sample_exn_str sample_help
                   a p eq_refl _ _)).
  - discriminate.
  - intros q [= <-]. discriminate.
Defined.

Lemma install_twice_one_marker_line_witness :
  let content := py "export EDITOR=vi" ++ nl in
  let w := World {[ sample_bashrc := content ]} [] in
  let w2 := (install_shell_integration sample_bashrc
               (install_shell_integration sample_bashrc w).1).1 in
  ∃ content', fs w2 !! sample_bashrc = Some content' ∧ marker_lines content' = 1.
Proof.
  intros content w.
  refine (proj2 (proj2 (install_twice_one_marker_line sample_bashrc w content
                          (lookup_singleton_eq _ _))) _ _).
  - vm_compute. lia.
  - intros _. reflexivity.
Defined.

Lemma reinstall_without_marker_line_witness :
  let w := World {[ sample_bashrc := py "export EDITOR=vi" ++ nl ]} [] in
  fs (reinstall_shell_integration sample_bashrc w).1
  = fs (install_shell_integration sample_bashrc w).1.
Proof.
  intros w.
  exact (reinstall_without_marker_line sample_bashrc w
           (py "export EDITOR=vi" ++ nl) (lookup_singleton_eq _ _) eq_refl).
Defined.

Lemma reinstall_unterminated_block_witness :
  let content :=
    join nl [py "alias ll='ls -l'"; marker; py "vity() {"; py "  echo hi"] in
  let w := World {[ sample_bashrc := content ]} [] in
  fs (reinstall_shell_integration sample_bashrc w).1 !! sample_bashrc
  = Some (join nl [py "alias ll='ls -l'"] ++ nl ++ script_content).
Proof.
  intros content w.
  refine (reinstall_unterminated_block sample_bashrc w content
            [py "alias ll='ls -l'"] [py "vity() {"; py "  echo hi"] marker
            (lookup_singleton_eq _ _) eq_refl eq_refl _ eq_refl).
  repeat constructor.
Defined.

Lemma reinstall_after_install_witness :
  let base := py "export EDITOR=vi" ++ nl in
  let w := World {[ sample_bashrc := base ]} [] in
  fs (reinstall_shell_integration sample_bashrc
        (install_shell_integration sample_bashrc w).1).1 !! sample_bashrc
  = Some ((base ++ nl ++ nl) ++ nl ++ script_content).
Proof.
  intros base w.
  exact (proj1 (proj2 (reinstall_after_install sample_bashrc w base
                         (lookup_singleton_eq _ _) eq_refl))).
Defined.

Lemma reinstall_one_marker_line_witness :
  ∃ content',
    fs (reinstall_shell_integration sample_bashrc
          (World {[ sample_bashrc := commented_profile ]} [])).1
    !! sample_bashrc = Some content'
    ∧ contains marker content' = true
    ∧ (marker_lines content' = 1 ∧ blocks content' = 1
       ∨ marker_lines content' = 0 ∧ blocks content' = 0).
Proof.
  exact (reinstall_one_marker_line sample_bashrc
           (World {[ sample_bashrc := commented_profile ]} [])
           commented_profile (lookup_singleton_eq _ _)).
Defined.

Lemma configured_skips_setup_witness :
  let p := Process (World {[ sample_config := py "OPENAI_API_KEY=k" ++ nl ]} [])
             [py "unread"] ∅ in
  sample_vity (answers []) NoCommand p = (say sample_help p, 0%Z).
Proof.
  intros p.
  refine (proj2 (configured_skips_setup sample_config sample_bashrc
                   sample_bash_history sample_resolve sample_read_error
                   sample_open_error sample_loads sample_dumps (answers [])
                   (answers []) sample_str_value sample_exn_str sample_help
                   p _)).
  eexists. apply lookup_singleton_eq.
Defined.

Lemma blank_key_exits_1_witness :
  let p := Process (World ∅ []) [py "   "; py "sk-later"] ∅ in
  (sample_vity (answers []) (Generate (Args Do [py "list"] None None)) p).2
  = 1%Z.
Proof.
  intros p. unfold sample_vity.
  rewrite (proj2 (blank_key_exits_1 sample_config sample_bashrc
                    sample_bash_history sample_resolve sample_read_error
                   sample_open_error sample_loads sample_dumps (answers [])
                    (answers []) sample_str_value sample_exn_str sample_help
                    (Generate (Args Do [py "list"] None None)) p
                    (lookup_empty _) (or_intror (ex_intro _ _ eq_refl)))
             (py "   ") [py "sk-later"] eq_refl eq_refl).
  reflexivity.
Defined.

Lemma first_run_saves_key_witness :
  let p := Process (World ∅ []) [py "  sk-abc "] ∅ in
  ∃ p',
    setup_config sample_config p = (p', Some true)
    ∧ fs (world_of p') = {[ sample_config := py "OPENAI_API_KEY=sk-abc" ++ nl ]}.
Proof.
  intros p.
  destruct (first_run_saves_key sample_config sample_bashrc
              sample_bash_history sample_resolve sample_read_error
                   sample_open_error sample_loads sample_dumps (answers [])
              (answers []) sample_str_value sample_exn_str sample_help
              p (py "  sk-abc ") [] (lookup_empty _) eq_refl
              ltac:(discriminate))
    as (p' & Hsetup & Hfs & _).
  exists p'. split; [exact Hsetup|]. rewrite Hfs. reflexivity.
Defined.

Lemma setup_then_reset_witness :
  let p := Process (World ∅ []) [py "sk-abc"] ∅ in
  fs (reset_config sample_config
        (world_of (setup_config sample_config p).1)).1 = ∅.
Proof.
  intros p.
  exact (proj2 (setup_then_reset sample_config p (py "sk-abc") []
                  (lookup_empty _) eq_refl ltac:(discriminate))).
Defined.

Lemma always_available_witness :
  let p := Process (World ∅ []) [py "unread"] ∅ in
  (sample_vity (answers []) Reinstall p).2 = 0%Z
  ∧ stdin (sample_vity (answers []) Reinstall p).1 = [py "unread"].
Proof.
  intros p.
  destruct (always_available sample_config sample_bashrc sample_bash_history
              sample_resolve sample_read_error sample_open_error
              sample_loads sample_dumps (answers []) (answers [])
              sample_str_value sample_exn_str sample_help Reinstall p
              ltac:(discriminate) ltac:(intros a; discriminate))
    as (Hstatus & Hstdin & _).
  split; [exact Hstatus|exact Hstdin].
Defined.

Lemma reinstall_touches_profile_only_witness :
  reinstall_shell_integration sample_bashrc (World ∅ [])
  = (World ∅ [py "❌ ~/.bashrc not found"], ok tt).
Proof.
  exact (proj2 (reinstall_touches_profile_only sample_bashrc (World ∅ []))
           (lookup_empty _)).
Defined.
